(** * sysbox-fs: handler dispatch and resource reconciliation

    A shallow embedding of the fuse-server service ([fuse/service.go]), of
    the [nf_conntrack_max] handler, of the [/proc/meminfo] and
    [/proc/cpuinfo] handlers and of the [/proc/sys/net/ipv4/neigh] handler,
    followed by the properties that the written specification states about
    them.

    Conventions.  A Go [int] / [int64] is a [Z]; a [uint32] pid is an [N];
    a [[]byte] is a [list byte] and a Go [string] a [string] (both are byte
    sequences, [string(buf)] and [[]byte(s)] are the two conversions).  A
    Go [error] is an [option error], [None] being [nil].  A method that
    mutates its receiver returns the new receiver next to its results. *)

From Stdlib Require Import ZArith NArith String Ascii List Bool Lia.
From Stdlib.Strings Require Import Byte.
From Stdlib Require Import Decimal DecimalString DecimalN DecimalZ DecimalPos.
From stdpp Require Import gmap strings list fin_maps.

Import ListNotations.
Local Open Scope Z_scope.

(* ===================================================================== *)
(** * Errors *)
(* ===================================================================== *)

(** [syscall.Errno] values used by the handlers. *)
Definition ENOENT : Z := 2.
Definition EIO : Z := 5.
Definition EACCES : Z := 13.

(** The two sentinels of [strconv]. *)
Inductive NumErrKind := ErrSyntax | ErrRange.

(** The error values that flow through the modelled code. *)
Inductive error :=
| EOF                                              (* io.EOF *)
| ErrorString (msg : string)                       (* errors.New, fmt.Errorf *)
| NumError (fn num : string) (kind : NumErrKind)   (* *strconv.NumError *)
| IOerror (code : Z)                               (* fuse.IOerror{Code: code} *)
| PathError (op path : string) (errno : Z).        (* *os.PathError from the host *)

(** [err == io.EOF] *)
Definition isEOF (e : error) : bool :=
  match e with EOF => true | _ => false end.

(* ===================================================================== *)
(** * The Go library functions the handlers call *)
(* ===================================================================== *)

Module GoLib.

(** A string given by its bytes. *)
Definition bs (l : list Z) : string :=
  string_of_list_ascii (List.map (fun b => ascii_of_N (Z.to_N b)) l).

(** The UTF-8 encodings of the runes for which [unicode.IsSpace] holds:
    TAB, LF, VT, FF, CR, SPACE, U+0085, U+00A0, U+1680, U+2000..U+200A,
    U+2028, U+2029, U+202F, U+205F, U+3000. *)
Definition spaceRunes : list string :=
  [ bs [9]; bs [10]; bs [11]; bs [12]; bs [13]; bs [32];
    bs [194; 133]; bs [194; 160]; bs [225; 154; 128] ]
  ++ List.map (fun k => bs [226; 128; k])
       [128; 129; 130; 131; 132; 133; 134; 135; 136; 137; 138]
  ++ [ bs [226; 128; 168]; bs [226; 128; 169]; bs [226; 128; 175];
       bs [226; 129; 159]; bs [227; 128; 128] ].

Fixpoint stripPrefix (p s : string) : option string :=
  match p, s with
  | EmptyString, _ => Some s
  | String a p', String b s' => if Ascii.eqb a b then stripPrefix p' s' else None
  | String _ _, EmptyString => None
  end.

Fixpoint firstStrip (ps : list string) (s : string) : option string :=
  match ps with
  | [] => None
  | p :: ps' =>
      match stripPrefix p s with
      | Some r => Some r
      | None => firstStrip ps' s
      end
  end.

Fixpoint trimLeftRunes (fuel : nat) (runes : list string) (s : string) : string :=
  match fuel with
  | O => s
  | S fuel' =>
      match firstStrip runes s with
      | Some r => trimLeftRunes fuel' runes r
      | None => s
      end
  end.

Definition revString (s : string) : string :=
  string_of_list_ascii (List.rev (list_ascii_of_string s)).

(** [strings.TrimSpace]: all leading and trailing white space removed. *)
Definition TrimSpace (s : string) : string :=
  let l := trimLeftRunes (String.length s) spaceRunes s in
  revString
    (trimLeftRunes (String.length l) (List.map revString spaceRunes) (revString l)).

(** [strings.HasPrefix] *)
Definition HasPrefix (s prefix : string) : bool :=
  match stripPrefix prefix s with
  | Some _ => true
  | None => false
  end.

(** Go's [int] on the 64-bit platforms sysbox-fs runs on. *)
Definition MinInt : Z := - 2 ^ 63.
Definition MaxInt : Z := 2 ^ 63 - 1.

(** [strconv.Atoi]: an optional sign and at least one decimal digit; the
    value is returned with a [nil] error only when it fits an [int]. *)
Definition Atoi (s : string) : Z * option error :=
  let '(neg, digits) :=
    match s with
    | String "-"%char r => (true, r)
    | String "+"%char r => (false, r)
    | _ => (false, s)
    end in
  match NilZero.uint_of_string digits with
  | None => (0, Some (NumError "Atoi" s ErrSyntax))
  | Some d =>
      let n := Z.of_N (N.of_uint d) in
      let v := if neg : bool then - n else n in
      if v <? MinInt then (MinInt, Some (NumError "Atoi" s ErrRange))
      else if MaxInt <? v then (MaxInt, Some (NumError "Atoi" s ErrRange))
      else (v, None)
  end.

(** The one-byte string ["\n"]. *)
Definition newline : string := String "010"%char EmptyString.

(** [strconv.Itoa] *)
Definition Itoa (n : Z) : string := NilZero.string_of_int (Z.to_int n).

(** [strings.Split(s, "/")] *)
Fixpoint splitSlash (s : string) : list string :=
  match s with
  | EmptyString => [EmptyString]
  | String c r =>
      if Ascii.eqb c "/" then EmptyString :: splitSlash r
      else match splitSlash r with
           | h :: t => String c h :: t
           | [] => [String c EmptyString]
           end
  end.

Fixpoint joinSlash (l : list string) : string :=
  match l with
  | [] => EmptyString
  | [x] => x
  | x :: r => x +:+ "/" +:+ joinSlash r
  end.

Definition rooted (path : string) : bool :=
  match path with String "/"%char _ => true | _ => false end.

(** One path element met by [filepath.Clean]; [stack] holds the elements
    kept so far, last first. *)
Definition cleanStep (isRooted : bool) (stack : list string) (c : string)
  : list string :=
  if String.eqb c "" || String.eqb c "." then stack
  else if String.eqb c ".." then
    match stack with
    | top :: rest => if String.eqb top ".." then c :: stack else rest
    | [] => if isRooted then [] else [c]
    end
  else c :: stack.

(** [filepath.Clean] on Unix: repeated separators, [.] elements and inner
    [..] elements are removed; the empty result is ["."]. *)
Definition Clean (path : string) : string :=
  let out :=
    joinSlash (List.rev (fold_left (cleanStep (rooted path)) (splitSlash path) [])) in
  if rooted path then "/" +:+ out
  else if String.eqb out "" then "." else out.

(** [path[:i+1]] where [i] is the index of the last separator. *)
Fixpoint dirPrefix (path : string) : string :=
  match path with
  | EmptyString => EmptyString
  | String c r =>
      let p := dirPrefix r in
      if Ascii.eqb c "/" then String c p
      else if String.eqb p "" then EmptyString else String c p
  end.

(** [filepath.Dir] *)
Definition Dir (path : string) : string := Clean (dirPrefix path).

(** [filepath.Base] *)
Definition Base (path : string) : string :=
  if String.eqb path "" then "."
  else match List.filter (fun c => negb (String.eqb c "")) (splitSlash path) with
       | [] => "/"
       | c :: cs => List.last cs c
       end.

(** [filepath.Join] of two elements. *)
Definition Join (a b : string) : string :=
  if negb (String.eqb a "") then Clean (a +:+ "/" +:+ b)
  else if negb (String.eqb b "") then Clean b
  else "".

End GoLib.

(* ===================================================================== *)
(** * The domain package: I/O nodes, containers, handler requests *)
(* ===================================================================== *)

Module Domain.

(** [syscall.O_RDONLY], [syscall.O_WRONLY], [syscall.O_RDWR] *)
Definition O_RDONLY : Z := 0.
Definition O_WRONLY : Z := 1.
Definition O_RDWR : Z := 2.

(** [len(buf)] *)
Definition len {A} (l : list A) : Z := Z.of_nat (length l).

(** [domain.IOnode]: the interface through which a handler reaches the
    host pseudo-file.  A method that changes the node (or the file behind
    it) returns the node after the call. *)
Class IOnode (Nd : Type) := {
  Name : Nd -> string;
  Path : Nd -> string;
  OpenFlags : Nd -> Z;
  SetOpenFlags : Z -> Nd -> Nd;
  SetPath : string -> Nd -> Nd;
  Open : Nd -> Nd * option error;
  Close : Nd -> Nd * option error;
  ReadLine : Nd -> Nd * (string * option error);
  SeekReset : Nd -> Nd * (Z * option error);
  Write : list byte -> Nd -> Nd * (Z * option error)
}.

(** Modelled from the spec: the container object of the state service,
    which is not among the sources (spec 3 and 4.2): an identity, the
    owner ids and the resource map [(virtual_dir, virtual_file) -> string]. *)
Record Container := {
  cntrID : string;
  cntrUID : N;
  cntrGID : N;
  dataStore : gmap (string * string) string
}.

(** Modelled from the spec: the container state service, which is not
    among the sources (spec 4.2): [lookup_by_pid(pid) -> container | none].
    A [*container] is modelled by the key of the container in [cntrTable]. *)
Record ContainerStateService := {
  pidTable : gmap N string;
  cntrTable : gmap string Container
}.

Definition ContainerLookupByPid (css : ContainerStateService) (pid : N)
  : option string :=
  match pidTable css !! pid with
  | Some id => match cntrTable css !! id with
               | Some _ => Some id
               | None => None
               end
  | None => None
  end.

(** Modelled from the spec: [data_get(dir,file) -> value | none]. *)
Definition Data (css : ContainerStateService) (cntr path name : string)
  : option string :=
  match cntrTable css !! cntr with
  | Some c => dataStore c !! (path, name)
  | None => None
  end.

Definition setDataStore (path name data : string) (c : Container) : Container :=
  {| cntrID := cntrID c; cntrUID := cntrUID c; cntrGID := cntrGID c;
     dataStore := <[(path, name) := data]> (dataStore c) |}.

(** Modelled from the spec: [data_set(dir,file,value)]. *)
Definition SetData (cntr path name data : string) (css : ContainerStateService)
  : ContainerStateService :=
  {| pidTable := pidTable css;
     cntrTable := alter (setDataStore path name data) cntr (cntrTable css) |}.

(** Modelled from the spec: [copyResultBuffer], the helper of the
    implementations package that copies the payload of a read into the
    request buffer, is not among the sources (spec 4.4, read: the payload
    is copied into [req.data]).  As Go's [copy], it moves as many bytes as
    both slices hold and returns their number. *)
Definition copyResultBuffer (buf result : list byte)
  : list byte * (Z * option error) :=
  let k := Nat.min (length buf) (length result) in
  (take k result ++ drop k buf, (Z.of_nat k, None)).

Section State.
Context {Nd : Type}.

(** What a handler call can read and change: the node it is given and the
    container state service its handler service points to. *)
Record HState := { node : Nd; css : ContainerStateService }.

(** A call is a function from the state before it to its results and the
    state after it. *)
Definition M (A : Type) : Type := HState -> A * HState.

Definition ret {A} (a : A) : M A := fun s => (a, s).

Definition bind {A B} (c : M A) (k : A -> M B) : M B :=
  fun s => let '(a, s') := c s in k a s'.

(** A read-only method of the node. *)
Definition ask {A} (f : Nd -> A) : M A := fun s => (f (node s), s).

(** A method of the node that changes it. *)
Definition call {A} (f : Nd -> Nd * A) : M A :=
  fun s => let '(n', a) := f (node s) in (a, {| node := n'; css := css s |}).

(** A setter of the node. *)
Definition update (f : Nd -> Nd) : M unit :=
  fun s => (tt, {| node := f (node s); css := css s |}).

(** [h.Service.StateService().ContainerLookupByPid(pid)] *)
Definition lookupByPid (pid : N) : M (option string) :=
  fun s => (ContainerLookupByPid (css s) pid, s).

(** [cntr.Data(path, name)] *)
Definition getData (cntr path name : string) : M (option string) :=
  fun s => (Data (css s) cntr path name, s).

(** [cntr.SetData(path, name, data)] *)
Definition setData (cntr path name data : string) : M unit :=
  fun s => (tt, {| node := node s; css := SetData cntr path name data (css s) |}).

End State.

Arguments HState : clear implicits.
Arguments M : clear implicits.

(** Modelled from the spec: the I/O node of the host I/O service, which is
    not among the sources (spec 4.1): a host path with its open flags and
    the pseudo-file behind it.  The pseudo-file is a kernel tunable: it
    holds one line, [read_line] returns it and reports EOF on an empty
    read, a [write] replaces it.  Each host operation fails when the host
    makes it fail, which the [*Fault] fields decide. *)
Record ioFileNode := {
  ioName : string;
  ioPath : string;
  ioFlags : Z;
  ioOpened : option Z;          (* the flags of the host open, once open *)
  hostLine : string;            (* the line held by the host pseudo-file *)
  openFault : option error;
  closeFault : option error;
  readFault : option error;
  seekFault : option error;
  writeFault : option error
}.

Definition ioSetFlags (flags : Z) (n : ioFileNode) : ioFileNode :=
  {| ioName := ioName n; ioPath := ioPath n; ioFlags := flags;
     ioOpened := ioOpened n; hostLine := hostLine n;
     openFault := openFault n; closeFault := closeFault n;
     readFault := readFault n; seekFault := seekFault n;
     writeFault := writeFault n |}.

Definition ioSetPath (path : string) (n : ioFileNode) : ioFileNode :=
  {| ioName := ioName n; ioPath := path; ioFlags := ioFlags n;
     ioOpened := ioOpened n; hostLine := hostLine n;
     openFault := openFault n; closeFault := closeFault n;
     readFault := readFault n; seekFault := seekFault n;
     writeFault := writeFault n |}.

Definition ioSetOpened (o : option Z) (n : ioFileNode) : ioFileNode :=
  {| ioName := ioName n; ioPath := ioPath n; ioFlags := ioFlags n;
     ioOpened := o; hostLine := hostLine n;
     openFault := openFault n; closeFault := closeFault n;
     readFault := readFault n; seekFault := seekFault n;
     writeFault := writeFault n |}.

Definition ioSetLine (l : string) (n : ioFileNode) : ioFileNode :=
  {| ioName := ioName n; ioPath := ioPath n; ioFlags := ioFlags n;
     ioOpened := ioOpened n; hostLine := l;
     openFault := openFault n; closeFault := closeFault n;
     readFault := readFault n; seekFault := seekFault n;
     writeFault := writeFault n |}.

Definition ioOpen (n : ioFileNode) : ioFileNode * option error :=
  match openFault n with
  | Some e => (n, Some e)
  | None => (ioSetOpened (Some (ioFlags n)) n, None)
  end.

Definition ioClose (n : ioFileNode) : ioFileNode * option error :=
  match closeFault n with
  | Some e => (n, Some e)
  | None => (ioSetOpened None n, None)
  end.

Definition ioReadLine (n : ioFileNode) : ioFileNode * (string * option error) :=
  match readFault n with
  | Some e => (n, ("", Some e))
  | None => if String.eqb (hostLine n) "" then (n, ("", Some EOF))
            else (n, (hostLine n, None))
  end.

Definition ioSeekReset (n : ioFileNode) : ioFileNode * (Z * option error) :=
  match seekFault n with
  | Some e => (n, (0, Some e))
  | None => (n, (0, None))
  end.

Definition ioWrite (msg : list byte) (n : ioFileNode)
  : ioFileNode * (Z * option error) :=
  match writeFault n with
  | Some e => (n, (0, Some e))
  | None => (ioSetLine (string_of_list_byte msg) n, (len msg, None))
  end.

(** Modelled from the spec: [ReadNode] of the host I/O service, which is
    not among the sources (spec 2 and 4.4.1: it performs the raw read of
    the host file): the line of the pseudo-file and its newline are copied
    into [p]. *)
Definition ioReadNode (n : ioFileNode) (p : list byte)
  : ioFileNode * (list byte * (Z * option error)) :=
  match readFault n with
  | Some e => (n, (p, (0, Some e)))
  | None =>
      let content := list_byte_of_string (hostLine n +:+ GoLib.newline) in
      let k := Nat.min (length p) (length content) in
      (n, (take k content ++ drop k p, (Z.of_nat k, None)))
  end.

#[global] Instance ioFileNode_IOnode : IOnode ioFileNode := {
  Name := ioName;
  Path := ioPath;
  OpenFlags := ioFlags;
  SetOpenFlags := ioSetFlags;
  SetPath := ioSetPath;
  Open := ioOpen;
  Close := ioClose;
  ReadLine := ioReadLine;
  SeekReset := ioSeekReset;
  Write := ioWrite
}.

End Domain.

Declare Scope go_scope.
Delimit Scope go_scope with go.
Notation "x <- c ;; k" := (Domain.bind c (fun x => k))
  (at level 20, c at level 99, k at level 200, only parsing) : go_scope.
Notation "' p <- c ;; k" := (Domain.bind c (fun x => match x with p => k end))
  (at level 20, p pattern, c at level 99, k at level 200, only parsing) : go_scope.

(** Modelled from the spec: the translation, by the fuse server, of the
    error of a handler into the errno returned to the kernel; the fuse
    server is not among the sources (spec 6 and 7): an [IOerror] carries
    its errno, the end-of-file marker is no errno, and every other error
    that is surfaced is an I/O failure, [EIO]. *)
Definition errnoOf (e : error) : option Z :=
  match e with
  | EOF => None
  | IOerror code => Some code
  | ErrorString _ | NumError _ _ _ | PathError _ _ _ => Some EIO
  end.

(** [err != nil && err != io.EOF] *)
Definition notNilNotEOF (err : option error) : bool :=
  match err with
  | Some e => negb (isEOF e)
  | None => false
  end.

(* ===================================================================== *)
(** * The /proc/sys/net/netfilter/nf_conntrack_max handler *)
(* ===================================================================== *)

Module NfConntrackMaxHandler.
Section Handler.
Context {Nd : Type} `{Domain.IOnode Nd}.
Local Open Scope go_scope.

Abbreviation M := (Domain.M Nd).
Abbreviation ret := Domain.ret.

(** [func (h *NfConntrackMaxHandler) Open(n, pid) error] *)
Definition Open (pid : N) : M (option error) :=
  flags <- Domain.ask Domain.OpenFlags ;;
  if negb (flags =? Domain.O_RDONLY) && negb (flags =? Domain.O_WRONLY)
  then ret (Some (IOerror EACCES))
  else
    _ <- (if flags =? Domain.O_WRONLY
          then Domain.update (Domain.SetOpenFlags Domain.O_RDWR)
          else ret tt) ;;
    err <- Domain.call Domain.Open ;;
    match err with
    | Some _ => ret (Some (IOerror EIO))
    | None => ret None
    end.

(** [func (h *NfConntrackMaxHandler) Close(n) error] *)
Definition Close : M (option error) := ret None.

(** [func (h *NfConntrackMaxHandler) FetchFile(n, c) (string, error)] *)
Definition FetchFile (c : string) : M (string * option error) :=
  '(curHostMax, err) <- Domain.call Domain.ReadLine ;;
  if notNilNotEOF err then ret ("", err)
  else
    let '(_, err) := GoLib.Atoi curHostMax in
    match err with
    | Some e => ret ("", Some e)
    | None => ret (curHostMax, None)
    end.

(** [func (h *NfConntrackMaxHandler) PushFile(n, c, newMaxInt) error] *)
Definition PushFile (c : string) (newMaxInt : Z) : M (option error) :=
  '(curHostMax, err) <- Domain.call Domain.ReadLine ;;
  if notNilNotEOF err then ret err
  else
    let '(curHostMaxInt, err) := GoLib.Atoi curHostMax in
    match err with
    | Some e => ret (Some e)
    | None =>
        if newMaxInt <=? curHostMaxInt then ret None
        else
          '(_, err) <- Domain.call Domain.SeekReset ;;
          match err with
          | Some e => ret (Some e)
          | None =>
              let msg := list_byte_of_string (GoLib.Itoa newMaxInt) in
              '(_, err) <- Domain.call (Domain.Write msg) ;;
              match err with
              | Some e => ret (Some e)
              | None => ret None
              end
          end
    end.

(** [func (h *NfConntrackMaxHandler) Read(n, pid, buf, off) (int, error)];
    the buffer after the call comes first in the result. *)
Definition Read (pid : N) (buf : list byte) (off : Z)
  : M (list byte * (Z * option error)) :=
  if 0 <? off then ret (buf, (0, Some EOF))
  else
    name <- Domain.ask Domain.Name ;;
    path <- Domain.ask Domain.Path ;;
    cntr <- Domain.lookupByPid pid ;;
    match cntr with
    | None => ret (buf, (0, Some (ErrorString "Container not found")))
    | Some cntr =>
        data <- Domain.getData cntr path name ;;
        match data with
        | Some data =>
            ret (Domain.copyResultBuffer buf (list_byte_of_string (data +:+ GoLib.newline)))
        | None =>
            '(data, err) <- FetchFile cntr ;;
            if notNilNotEOF err then ret (buf, (0, err))
            else
              _ <- Domain.setData cntr path name data ;;
              ret (Domain.copyResultBuffer buf (list_byte_of_string (data +:+ GoLib.newline)))
        end
    end.

(** [func (h *NfConntrackMaxHandler) Write(n, pid, buf) (int, error)] *)
Definition Write (pid : N) (buf : list byte) : M (Z * option error) :=
  name <- Domain.ask Domain.Name ;;
  path <- Domain.ask Domain.Path ;;
  let newMax := GoLib.TrimSpace (string_of_list_byte buf) in
  let '(newMaxInt, err) := GoLib.Atoi newMax in
  match err with
  | Some e => ret (0, Some e)
  | None =>
      cntr <- Domain.lookupByPid pid ;;
      match cntr with
      | None => ret (0, Some (ErrorString "Container not found"))
      | Some cntr =>
          curMax <- Domain.getData cntr path name ;;
          match curMax with
          | None =>
              err <- PushFile cntr newMaxInt ;;
              match err with
              | Some e => ret (0, Some e)
              | None =>
                  _ <- Domain.setData cntr path name newMax ;;
                  ret (Domain.len buf, None)
              end
          | Some curMax =>
              let '(curMaxInt, err) := GoLib.Atoi curMax in
              match err with
              | Some e => ret (0, Some e)
              | None =>
                  if newMaxInt <=? curMaxInt then
                    _ <- Domain.setData cntr path name newMax ;;
                    ret (Domain.len buf, None)
                  else
                    err <- PushFile cntr newMaxInt ;;
                    match err with
                    | Some _ => ret (0, Some EOF)
                    | None =>
                        _ <- Domain.setData cntr path name newMax ;;
                        ret (Domain.len buf, None)
                    end
              end
          end
      end
  end.

End Handler.
End NfConntrackMaxHandler.

(* ===================================================================== *)
(** * The fuse-server service *)
(* ===================================================================== *)

Module Fuse.

(** [fuseServer]: the fields [CreateFuseServer] sets; the back pointer to
    the service is left out. *)
Record fuseServer := {
  path : string;
  mountPoint : string
}.

(** [FuseServerService]; the lock and the two service pointers are left
    out. *)
Record FuseServerService := {
  fssMountPoint : string;
  servers : gmap string fuseServer
}.

(** The service together with what its methods act on: the directories of
    the host file system, the servers whose [Run] was launched in its own
    goroutine, and the lines written through [logrus.Errorf]. *)
Record World := {
  fss : FuseServerService;
  dirs : gset string;
  launched : list fuseServer;
  logs : list string
}.

(** [func NewFuseServerService(mp, ios, hds) *FuseServerService] *)
Definition NewFuseServerService (mp : string) : FuseServerService :=
  {| fssMountPoint := mp; servers := ∅ |}.

Definition setServers (m : gmap string fuseServer) (w : World) : World :=
  {| fss := {| fssMountPoint := fssMountPoint (fss w); servers := m |};
     dirs := dirs w; launched := launched w; logs := logs w |}.

Definition setDirs (d : gset string) (w : World) : World :=
  {| fss := fss w; dirs := d; launched := launched w; logs := logs w |}.

Definition launch (srv : fuseServer) (w : World) : World :=
  {| fss := fss w; dirs := dirs w; launched := launched w ++ [srv];
     logs := logs w |}.

Definition Errorf (msg : string) (w : World) : World :=
  {| fss := fss w; dirs := dirs w; launched := launched w;
     logs := logs w ++ [msg] |}.

Section Service.

(** The methods of [fuseServer] are declared in a file that is not among
    the sources: [Init] and [Destroy] are taken as they come, each acting on
    the directories of the host and returning its error. *)
Variable Init : fuseServer -> gset string -> gset string * option error.
Variable Destroy : fuseServer -> gset string -> gset string * option error.

(** Whether the host refuses to create, or to remove, a directory. *)
Variable mkdirFault : string -> option error.
Variable removeFault : string -> option error.

(** [os.MkdirAll(path, 0600)]: the directory exists afterwards unless the
    host refuses; only the directory itself is tracked, not its parents. *)
Definition MkdirAll (p : string) (d : gset string) : gset string * option error :=
  match mkdirFault p with
  | Some e => (d, Some e)
  | None => ({[ p ]} ∪ d, None)
  end.

(** [os.Remove(path)] *)
Definition Remove (p : string) (d : gset string) : gset string * option error :=
  match removeFault p with
  | Some e => (d, Some e)
  | None => if decide (p ∈ d) then (d ∖ {[ p ]}, None)
            else (d, Some (PathError "remove" p ENOENT))
  end.

(** [func (fss *FuseServerService) CreateFuseServer(cntrId string) error] *)
Definition CreateFuseServer (cntrId : string) (w : World) : World * option error :=
  match servers (fss w) !! cntrId with
  | Some _ =>
      (Errorf ("FuseServer to create is already present for container id " +:+ cntrId) w,
       Some (ErrorString "FuseServer already present"))
  | None =>
      let cntrMountpoint := GoLib.Join (fssMountPoint (fss w)) cntrId in
      let '(d1, err) := MkdirAll cntrMountpoint (dirs w) in
      match err with
      | Some _ => (setDirs d1 w, Some (ErrorString "FuseServer with invalid mountpoint"))
      | None =>
          let srv := {| path := "/"; mountPoint := cntrMountpoint |} in
          let '(d2, err) := Init srv d1 in
          match err with
          | Some _ => (setDirs d2 w, Some (ErrorString "FuseServer initialization error"))
          | None =>
              let w1 := launch srv (setDirs d2 w) in
              (setServers (<[cntrId := srv]> (servers (fss w1))) w1, None)
          end
      end
  end.

(** [func (fss *FuseServerService) DestroyFuseServer(cntrId string) error] *)
Definition DestroyFuseServer (cntrId : string) (w : World) : World * option error :=
  match servers (fss w) !! cntrId with
  | None =>
      (Errorf ("FuseServer to destroy is not present for container id " +:+ cntrId) w,
       None)
  | Some srv =>
      let '(d1, err) := Destroy srv (dirs w) in
      match err with
      | Some _ =>
          (Errorf ("FuseServer to destroy could not be eliminated for container id "
                   +:+ cntrId) (setDirs d1 w), None)
      | None =>
          let cntrMountpoint := GoLib.Join (fssMountPoint (fss w)) cntrId in
          let '(d2, err) := Remove cntrMountpoint d1 in
          match err with
          | Some _ =>
              (Errorf ("FuseServer mountpoint could not be eliminated for container id "
                       +:+ cntrId) (setDirs d2 w), None)
          | None =>
              let w1 := setDirs d2 w in
              (setServers (delete cntrId (servers (fss w1))) w1, None)
          end
      end
  end.

(** The loop [for k, _ := range fss.servers { fss.DestroyFuseServer(k) }].
    [keys] is the order in which the range statement visits the map, which
    Go leaves open; an entry removed before it is reached is not visited. *)
Fixpoint rangeServers (keys : list string) (w : World) : World :=
  match keys with
  | [] => w
  | k :: keys' =>
      match servers (fss w) !! k with
      | Some _ => rangeServers keys' (fst (DestroyFuseServer k w))
      | None => rangeServers keys' w
      end
  end.

(** [func (fss *FuseServerService) DestroyFuseService()] *)
Definition DestroyFuseService (keys : list string) (w : World) : World :=
  rangeServers keys w.

End Service.
End Fuse.

(* ===================================================================== *)
(** * Handler requests *)
(* ===================================================================== *)

(** [domain.HandlerRequest]; [Container] is the container the server
    resolved for the caller, [None] being [nil]. *)
Record HandlerRequest := {
  ID : N;
  Pid : N;
  Container : option string;
  Offset : Z;
  Data : list byte
}.

Definition setReqData (d : list byte) (req : HandlerRequest) : HandlerRequest :=
  {| ID := ID req; Pid := Pid req; Container := Container req;
     Offset := Offset req; Data := d |}.

(* ===================================================================== *)
(** * The /proc/meminfo handler *)
(* ===================================================================== *)

Module ProcMeminfoHandler.
Section Handler.
Context {Nd : Type} `{Domain.IOnode Nd}.
Local Open Scope go_scope.

Abbreviation M := (Domain.M Nd).
Abbreviation ret := Domain.ret.

(** [h.Service.IOService().ReadNode(n, p)]: the I/O service is not among
    the sources; it is taken as it comes.  It returns the node and the
    buffer after the read, the number of bytes read and the error. *)
Variable ReadNode : Nd -> list byte -> Nd * (list byte * (Z * option error)).

(** [func (h *ProcMeminfoHandler) Open(n, req) error] *)
Definition Open (req : HandlerRequest) : M (option error) :=
  flags <- Domain.ask Domain.OpenFlags ;;
  if negb (flags =? Domain.O_RDONLY) then ret (Some (IOerror EACCES))
  else
    err <- Domain.call Domain.Open ;;
    match err with
    | Some _ => ret (Some (IOerror EIO))
    | None => ret None
    end.

(** [func (h *ProcMeminfoHandler) Close(n) error] *)
Definition Close : M (option error) :=
  err <- Domain.call Domain.Close ;;
  match err with
  | Some _ => ret (Some (IOerror EIO))
  | None => ret None
  end.

(** [func (h *ProcMeminfoHandler) Read(n, req) (int, error)]; the request
    after the call comes first in the result. *)
Definition Read (req : HandlerRequest) : M (HandlerRequest * (Z * option error)) :=
  '(data, (len, err)) <- Domain.call (fun n => ReadNode n (Data req)) ;;
  if notNilNotEOF err then ret (setReqData data req, (0, err))
  else ret (setReqData (take (Z.to_nat len) data) req, (len, None)).

(** [func (h *ProcMeminfoHandler) Write(n, req) (int, error)] *)
Definition Write (req : HandlerRequest) : M (HandlerRequest * (Z * option error)) :=
  ret (req, (0, None)).

End Handler.
End ProcMeminfoHandler.

(* ===================================================================== *)
(** * The /proc/cpuinfo handler *)
(* ===================================================================== *)

Module ProcCpuinfoHandler.
Section Handler.
Context {Nd : Type} `{Domain.IOnode Nd}.

Abbreviation M := (Domain.M Nd).
Abbreviation ret := Domain.ret.

(** [func (h *ProcCpuinfoHandler) Open(node) error] *)
Definition Open : M (option error) := ret None.

(** [func (h *ProcCpuinfoHandler) Close(node) error] *)
Definition Close : M (option error) := ret None.

(** [func (h *ProcCpuinfoHandler) Read(n, pid, buf, off) (int, error)]; the
    buffer after the call comes first in the result. *)
Definition Read (pid : N) (buf : list byte) (off : Z)
  : M (list byte * (Z * option error)) :=
  if 0 <? off then ret (buf, (0, Some EOF))
  else ret (buf, (0, None)).

(** [func (h *ProcCpuinfoHandler) Write(n, pid, buf) (int, error)] *)
Definition Write (pid : N) (buf : list byte) : M (Z * option error) :=
  ret (0, None).

End Handler.
End ProcCpuinfoHandler.

(* ===================================================================== *)
(** * The /proc/sys/net/ipv4/neigh handler *)
(* ===================================================================== *)

Module ProcSysNetIpv4Neigh.

(** [domain.EmuNode] *)
Inductive EmuNodeKind := EmuNodeDir | EmuNodeFile.
Record EmuNode := { Kind : EmuNodeKind; Mode : Z }.

(** [domain.FileInfo] *)
Record FileInfo := {
  Fname : string;
  Fmode : Z;
  FmodTime : Z;
  FisDir : bool
}.

(** [os.ModeDir] *)
Definition ModeDir : Z := Z.shiftl 1 31.

(** The handler's name and path. *)
Definition hName : string := "ProcSysNetIpv4Neigh".
Definition hPath : string := "/proc/sys/net/ipv4/neigh".

(** [ProcSysNetIpv4Neigh_Handler.EmuNodesMap]; the modes are the octal
    0555 and 0644. *)
Definition EmuNodesMap : gmap string EmuNode :=
  <["default" := {| Kind := EmuNodeDir; Mode := 365 |}]>
  (<["default/gc_thresh1" := {| Kind := EmuNodeFile; Mode := 420 |}]>
  (<["default/gc_thresh2" := {| Kind := EmuNodeFile; Mode := 420 |}]>
  (<["default/gc_thresh3" := {| Kind := EmuNodeFile; Mode := 420 |}]> ∅))).

(** Which arm of the [if] / [else if] of the loop of [ReadDirAll] runs for
    the key [k]. *)
Inductive Arm := FirstArm | SecondArm | NoArm.

Definition rangeArm (relpath k : string) : Arm :=
  if String.eqb relpath (GoLib.Dir k) then FirstArm
  else if negb (String.eqb relpath ".") && String.eqb relpath (GoLib.Dir k)
       then SecondArm
  else NoArm.

Section Handler.
Context {Nd : Type} `{Domain.IOnode Nd}.
Local Open Scope go_scope.

Abbreviation M := (Domain.M Nd).
Abbreviation ret := Domain.ret.

(** [h.GetService().IgnoreErrors()] *)
Variable IgnoreErrors : bool.

(** [readFileInt] and [writeInt], helpers of the implementations package
    that are not among the sources, are taken as they come. *)
Variable readFileInt : HandlerRequest -> M (HandlerRequest * (Z * option error)).
Variable writeInt :
  HandlerRequest -> Z -> Z -> bool -> M (HandlerRequest * (Z * option error)).

(** [time.Now()], as read when the key [k] is handled. *)
Variable Now : string -> Z.

(** [func (h *ProcSysNetIpv4Neigh) Open(n, req) error] *)
Definition Open (req : HandlerRequest) : M (option error) := ret None.

(** [func (h *ProcSysNetIpv4Neigh) Close(n) error] *)
Definition Close : M (option error) := ret None.

(** [func (h *ProcSysNetIpv4Neigh) Read(n, req) (int, error)] *)
Definition Read (req : HandlerRequest) : M (HandlerRequest * (Z * option error)) :=
  if 0 <? Offset req then ret (req, (0, Some EOF))
  else
    match Container req with
    | None => ret (req, (0, Some (ErrorString "Container not found")))
    | Some cntr =>
        _ <- (if IgnoreErrors
              then Domain.update (Domain.SetPath "/proc/sys/net/ipv4/neigh/lo/retrans_time")
              else ret tt) ;;
        readFileInt req
    end.

(** [func (h *ProcSysNetIpv4Neigh) Write(n, req) (int, error)] *)
Definition Write (req : HandlerRequest) : M (HandlerRequest * (Z * option error)) :=
  let cntr := Container req in
  let newVal := GoLib.TrimSpace (string_of_list_byte (Data req)) in
  let '(_, err) := GoLib.Atoi newVal in
  match err with
  | Some e => ret (req, (0, Some e))
  | None =>
      match cntr with
      | None => ret (req, (0, Some (ErrorString "Container not found")))
      | Some _ =>
          _ <- (if IgnoreErrors
                then Domain.update (Domain.SetPath "/proc/sys/net/ipv4/neigh/lo/retrans_time")
                else ret tt) ;;
          writeInt req GoLib.MinInt GoLib.MaxInt false
      end
  end.

(** [func (h *ProcSysNetIpv4Neigh) Lookup(n, req) (os.FileInfo, error)].
    [rel] is what [filepath.Rel(h.Path, n.Path())] returns and [procSys]
    what the ["/proc/sys/"] handler returns from its own [Lookup], [None]
    when the handler service does not find it.  A [nil] file info is
    [None]. *)
Definition Lookup (rel : string * option error)
    (procSys : option (option FileInfo * option error))
  : option FileInfo * option error :=
  let '(relPath, err) := rel in
  match err with
  | Some e => (None, Some e)
  | None =>
      let relPathDir := GoLib.Dir relPath in
      let lookupEntry :=
        if String.eqb relPathDir "." || GoLib.HasPrefix relPath "default/gc_thresh"
        then relPath else "" in
      match EmuNodesMap !! lookupEntry with
      | Some v =>
          (Some match Kind v with
                | EmuNodeDir =>
                    {| Fname := lookupEntry; Fmode := Z.lor ModeDir (Mode v);
                       FmodTime := Now lookupEntry; FisDir := true |}
                | EmuNodeFile =>
                    {| Fname := lookupEntry; Fmode := Mode v;
                       FmodTime := Now lookupEntry; FisDir := false |}
                end, None)
      | None =>
          match procSys with
          | None => (None, Some (ErrorString "No /proc/sys/ handler found"))
          | Some r => r
          end
      end
  end.

(** The body of the loop of [ReadDirAll] for the key [k]. *)
Definition rangeBody (relpath : string) (fileEntries : list FileInfo) (k : string)
  : list FileInfo :=
  match rangeArm relpath k with
  | FirstArm =>
      fileEntries ++ [ {| Fname := GoLib.Base k; Fmode := ModeDir;
                          FmodTime := Now k; FisDir := true |} ]
  | SecondArm =>
      fileEntries ++ [ {| Fname := GoLib.Base k; Fmode := 0;
                          FmodTime := Now k; FisDir := false |} ]
  | NoArm => fileEntries
  end.

(** [func (h *ProcSysNetIpv4Neigh) ReadDirAll(n, req) ([]os.FileInfo, error)].
    [rel] is what [filepath.Rel(h.Path, n.Path())] returns, [keys] the
    order in which the range statement visits [h.EmuNodesMap], and
    [procSys] what the ["/proc/sys/"] handler returns from its own
    [ReadDirAll], [None] when the handler service does not find it. *)
Definition ReadDirAll (req : HandlerRequest) (rel : string * option error)
    (keys : list string) (procSys : option (list FileInfo * option error))
  : list FileInfo * option error :=
  match Container req with
  | None => ([], Some (ErrorString "Container not found"))
  | Some _ =>
      let '(relpath, err) := rel in
      match err with
      | Some e => ([], Some e)
      | None =>
          let fileEntries := fold_left (rangeBody relpath) keys [] in
          match procSys with
          | None => ([], Some (ErrorString "No /proc/sys/ handler found"))
          | Some (commonNeigh, err) =>
              match err with
              | None => (fileEntries ++ commonNeigh, None)
              | Some _ => (fileEntries, None)
              end
          end
      end
  end.

End Handler.
End ProcSysNetIpv4Neigh.

(* ===================================================================== *)
(** * Concrete nodes, containers and services *)
(* ===================================================================== *)

Module Samples.

Definition b (s : string) : list byte := list_byte_of_string s.

Definition nfPath : string := "/proc/sys/net/netfilter/nf_conntrack_max".
Definition nfName : string := "nf_conntrack_max".

(** The node of [nf_conntrack_max], opened with [flags], the host holding
    [line]. *)
Definition nfNode (flags : Z) (line : string) : Domain.ioFileNode :=
  {| Domain.ioName := nfName; Domain.ioPath := nfPath;
     Domain.ioFlags := flags; Domain.ioOpened := None;
     Domain.hostLine := line;
     Domain.openFault := None; Domain.closeFault := None;
     Domain.readFault := None; Domain.seekFault := None;
     Domain.writeFault := None |}.

(** The same node on a host that refuses the write. *)
Definition nfNodeWriteFails (line : string) : Domain.ioFileNode :=
  {| Domain.ioName := nfName; Domain.ioPath := nfPath;
     Domain.ioFlags := Domain.O_RDWR; Domain.ioOpened := Some Domain.O_RDWR;
     Domain.hostLine := line;
     Domain.openFault := None; Domain.closeFault := None;
     Domain.readFault := None; Domain.seekFault := None;
     Domain.writeFault := Some (PathError "write" nfPath EIO) |}.

(** The same node on a host that refuses the open. *)
Definition nfNodeOpenFails (flags : Z) : Domain.ioFileNode :=
  {| Domain.ioName := nfName; Domain.ioPath := nfPath;
     Domain.ioFlags := flags; Domain.ioOpened := None;
     Domain.hostLine := "100";
     Domain.openFault := Some (PathError "open" nfPath ENOENT);
     Domain.closeFault := None; Domain.readFault := None;
     Domain.seekFault := None; Domain.writeFault := None |}.

(** The node of [/proc/meminfo], opened read-only. *)
Definition memNode : Domain.ioFileNode :=
  {| Domain.ioName := "meminfo"; Domain.ioPath := "/proc/meminfo";
     Domain.ioFlags := Domain.O_RDONLY; Domain.ioOpened := Some Domain.O_RDONLY;
     Domain.hostLine := "MemTotal: 16384 kB";
     Domain.openFault := None; Domain.closeFault := None;
     Domain.readFault := None; Domain.seekFault := None;
     Domain.writeFault := None |}.

Definition cntr (id : string) (store : gmap (string * string) string)
  : Domain.Container :=
  {| Domain.cntrID := id; Domain.cntrUID := 1000%N; Domain.cntrGID := 1000%N;
     Domain.dataStore := store |}.

(** One registered container, [c1], holding the process 10, with [store]
    as its resource map. *)
Definition cssOne (store : gmap (string * string) string)
  : Domain.ContainerStateService :=
  {| Domain.pidTable := {[ 10%N := "c1" ]};
     Domain.cntrTable := {[ "c1" := cntr "c1" store ]} |}.

(** Two registered containers, [c1] holding the processes 10 and 11 and
    [c2] the process 20. *)
Definition cssTwo : Domain.ContainerStateService :=
  {| Domain.pidTable := <[ 10%N := "c1" ]> (<[ 11%N := "c1" ]> {[ 20%N := "c2" ]});
     Domain.cntrTable := <[ "c1" := cntr "c1" ∅ ]> {[ "c2" := cntr "c2" ∅ ]} |}.

Definition state (n : Domain.ioFileNode) (c : Domain.ContainerStateService)
  : Domain.HState Domain.ioFileNode :=
  {| Domain.node := n; Domain.css := c |}.

(** A request of the process 10 of [c1]. *)
Definition request (off : Z) (data : list byte) : HandlerRequest :=
  {| ID := 1%N; Pid := 10%N; Container := Some "c1"; Offset := off;
     Data := data |}.

(** A server of the container [c1] under the default base mountpoint. *)
Definition srv1 : Fuse.fuseServer :=
  {| Fuse.path := "/"; Fuse.mountPoint := "/var/lib/sysboxfs/c1" |}.

(** A server of the container [c2]. *)
Definition srv2 : Fuse.fuseServer :=
  {| Fuse.path := "/"; Fuse.mountPoint := "/var/lib/sysboxfs/c2" |}.

Definition world (m : gmap string Fuse.fuseServer) (d : gset string) : Fuse.World :=
  {| Fuse.fss := {| Fuse.fssMountPoint := "/var/lib/sysboxfs"; Fuse.servers := m |};
     Fuse.dirs := d; Fuse.launched := []; Fuse.logs := [] |}.

(** Server methods that succeed, and that fail, leaving the host as it is. *)
Definition srvOk (s : Fuse.fuseServer) (d : gset string) : gset string * option error :=
  (d, None).
Definition srvFails (s : Fuse.fuseServer) (d : gset string) : gset string * option error :=
  (d, Some (ErrorString "fuse: mount failed")).

(** A host that refuses no directory operation. *)
Definition noFault (p : string) : option error := None.


End Samples.

(* ===================================================================== *)
(** * The words of the specification *)
(* ===================================================================== *)

Module Spec.

(** The payload ["<v>\n"] of a read that follows the write of [wbuf]: the
    trimmed written value with a trailing newline appended. *)
Definition payload (wbuf : list byte) : list byte :=
  list_byte_of_string
    (GoLib.TrimSpace (string_of_list_byte wbuf) +:+ GoLib.newline).

(** [reader] is the state that a read finds after a write took [before]
    to [after]: the container state service is the one the write left, the
    node names the resource the write was made on, and the reading process
    [pid'] lives in the container of the writing process [pid]. *)
Definition readsAfter {Nd : Type} `{Domain.IOnode Nd} (pid pid' : N)
    (before after reader : Domain.HState Nd) : Prop :=
  Domain.css reader = Domain.css after /\
  Domain.Name (Domain.node reader) = Domain.Name (Domain.node before) /\
  Domain.Path (Domain.node reader) = Domain.Path (Domain.node before) /\
  Domain.ContainerLookupByPid (Domain.css after) pid'
  = Domain.ContainerLookupByPid (Domain.css after) pid.




(** The file info that the neigh [Lookup] makes for the entry [name] of
    the table of emulated nodes. *)
Definition emulatedInfo (Now : string -> Z) (name : string)
    (v : ProcSysNetIpv4Neigh.EmuNode) : ProcSysNetIpv4Neigh.FileInfo :=
  match ProcSysNetIpv4Neigh.Kind v with
  | ProcSysNetIpv4Neigh.EmuNodeDir =>
      {| ProcSysNetIpv4Neigh.Fname := name;
         ProcSysNetIpv4Neigh.Fmode :=
           Z.lor ProcSysNetIpv4Neigh.ModeDir (ProcSysNetIpv4Neigh.Mode v);
         ProcSysNetIpv4Neigh.FmodTime := Now name;
         ProcSysNetIpv4Neigh.FisDir := true |}
  | ProcSysNetIpv4Neigh.EmuNodeFile =>
      {| ProcSysNetIpv4Neigh.Fname := name;
         ProcSysNetIpv4Neigh.Fmode := ProcSysNetIpv4Neigh.Mode v;
         ProcSysNetIpv4Neigh.FmodTime := Now name;
         ProcSysNetIpv4Neigh.FisDir := false |}
  end.

(** The file info under which the neigh [ReadDirAll] lists the key [k] of
    the table. *)
Definition listedInfo (Now : string -> Z) (k : string)
  : ProcSysNetIpv4Neigh.FileInfo :=
  {| ProcSysNetIpv4Neigh.Fname := GoLib.Base k;
     ProcSysNetIpv4Neigh.Fmode := ProcSysNetIpv4Neigh.ModeDir;
     ProcSysNetIpv4Neigh.FmodTime := Now k;
     ProcSysNetIpv4Neigh.FisDir := true |}.

End Spec.

(* ===================================================================== *)
(** * The library functions on concrete inputs *)
(* ===================================================================== *)

Example TrimSpace_ex1 : GoLib.TrimSpace (" 200" +:+ GoLib.bs [10]) = "200".
Proof. reflexivity. Qed.
Example TrimSpace_ex2 :
  GoLib.TrimSpace (GoLib.bs [194; 160; 9] +:+ "1 2" +:+ GoLib.bs [226; 128; 168; 13])
  = "1 2".
Proof. reflexivity. Qed.
Example Atoi_ex1 : GoLib.Atoi "200" = (200, None).
Proof. reflexivity. Qed.
Example Atoi_ex2 : GoLib.Atoi "+007" = (7, None).
Proof. reflexivity. Qed.
Example Atoi_ex3 : GoLib.Atoi "-" = (0, Some (NumError "Atoi" "-" ErrSyntax)).
Proof. reflexivity. Qed.
Example Atoi_ex4 : GoLib.Atoi "" = (0, Some (NumError "Atoi" "" ErrSyntax)).
Proof. reflexivity. Qed.
Example Atoi_ex5 : snd (GoLib.Atoi "9223372036854775808") =
                   Some (NumError "Atoi" "9223372036854775808" ErrRange).
Proof. reflexivity. Qed.
Example Itoa_ex1 : GoLib.Itoa (-15) = "-15" /\ GoLib.Itoa 0 = "0".
Proof. split; reflexivity. Qed.
Example Dir_ex1 : GoLib.Dir "default/gc_thresh1" = "default".
Proof. reflexivity. Qed.
Example Dir_ex2 : GoLib.Dir "default" = ".".
Proof. reflexivity. Qed.
Example Dir_ex3 : GoLib.Dir "/a/b/../c/" = "/a/c".
Proof. reflexivity. Qed.
Example Base_ex1 : GoLib.Base "default/gc_thresh1" = "gc_thresh1".
Proof. reflexivity. Qed.
Example Join_ex1 : GoLib.Join "/var/lib/sysboxfs" "c1" = "/var/lib/sysboxfs/c1".
Proof. reflexivity. Qed.

(* ===================================================================== *)
(** * Facts about the library functions *)
(* ===================================================================== *)

(** A non-empty run of digits, with or without a minus sign, parses to the
    number it writes when that number fits an [int]. *)
Lemma Atoi_digits (d : Decimal.uint) (neg : bool) :
  d <> Nil ->
  let v := if neg then - Z.of_N (N.of_uint d) else Z.of_N (N.of_uint d) in
  GoLib.MinInt <= v <= GoLib.MaxInt ->
  GoLib.Atoi ((if neg then "-" else "") +:+ NilEmpty.string_of_uint d) = (v, None).
Proof.
  intros Hd v Hv.
  assert (Hparse : NilZero.uint_of_string (NilEmpty.string_of_uint d) = Some d).
  { destruct d; [now destruct Hd | exact (NilEmpty.usu _) ..]. }
  assert (Hrange : (v <? GoLib.MinInt) = false /\ (GoLib.MaxInt <? v) = false).
  { split; apply Z.ltb_ge; lia. }
  destruct Hrange as [Hlo Hhi].
  unfold GoLib.Atoi.
  destruct neg.
  - change ("-" +:+ NilEmpty.string_of_uint d)
      with (String "-"%char (NilEmpty.string_of_uint d)).
    cbv iota beta. rewrite Hparse. fold v. cbv zeta. fold v.
    rewrite Hlo, Hhi. reflexivity.
  - change ("" +:+ NilEmpty.string_of_uint d) with (NilEmpty.string_of_uint d).
    destruct d; try (now destruct Hd);
      cbn [NilEmpty.string_of_uint] in *; cbv iota beta;
      rewrite Hparse; cbv zeta; fold v; rewrite Hlo, Hhi; reflexivity.
Qed.

(** [Atoi] reads back what [Itoa] writes. *)
Lemma Atoi_Itoa (n : Z) :
  GoLib.MinInt <= n <= GoLib.MaxInt -> GoLib.Atoi (GoLib.Itoa n) = (n, None).
Proof.
  intros Hn. unfold GoLib.Itoa.
  destruct n as [|p|p]; [reflexivity | |].
  - pose proof (Atoi_digits (Pos.to_uint p) false (Unsigned.to_uint_nonnil p)) as A.
    cbv zeta in A. rewrite Unsigned.of_to in A. simpl in A.
    unfold Z.to_int, NilZero.string_of_int, NilZero.string_of_uint.
    destruct (Pos.to_uint p) eqn:E;
      [now apply Unsigned.to_uint_nonnil in E | apply A; lia ..].
  - pose proof (Atoi_digits (Pos.to_uint p) true (Unsigned.to_uint_nonnil p)) as A.
    cbv zeta in A. rewrite Unsigned.of_to in A. simpl in A.
    unfold Z.to_int, NilZero.string_of_int, NilZero.string_of_uint.
    destruct (Pos.to_uint p) eqn:E;
      [now apply Unsigned.to_uint_nonnil in E | apply A; lia ..].
Qed.

(** A value [Atoi] returns without error fits an [int]. *)
Lemma Atoi_range (s : string) (v : Z) :
  GoLib.Atoi s = (v, None) -> GoLib.MinInt <= v <= GoLib.MaxInt.
Proof.
  unfold GoLib.Atoi.
  destruct (match s with
            | String "-"%char r => (true, r)
            | String "+"%char r => (false, r)
            | _ => (false, s)
            end) as [neg digits].
  destruct (NilZero.uint_of_string digits) as [d|]; [|discriminate].
  cbv zeta.
  destruct (Z.ltb_spec (if neg then - Z.of_N (N.of_uint d) else Z.of_N (N.of_uint d))
              GoLib.MinInt); [discriminate|].
  destruct (Z.ltb_spec GoLib.MaxInt
              (if neg then - Z.of_N (N.of_uint d) else Z.of_N (N.of_uint d)));
    [discriminate|].
  intros [= <-]. lia.
Qed.

(* ===================================================================== *)
(** * The container state service *)
(* ===================================================================== *)

Lemma Data_SetData_eq css cntr path name data :
  is_Some (Domain.cntrTable css !! cntr) ->
  Domain.Data (Domain.SetData cntr path name data css) cntr path name = Some data.
Proof.
  intros [c Hc]. unfold Domain.Data, Domain.SetData; simpl.
  rewrite lookup_alter_eq, Hc. simpl. apply lookup_insert_eq.
Qed.

Lemma ContainerLookupByPid_Some css pid cntr :
  Domain.ContainerLookupByPid css pid = Some cntr ->
  is_Some (Domain.cntrTable css !! cntr).
Proof.
  unfold Domain.ContainerLookupByPid.
  destruct (Domain.pidTable css !! pid) as [id|]; [|discriminate].
  destruct (Domain.cntrTable css !! id) eqn:E; [|discriminate].
  intros [= <-]. eauto.
Qed.

Lemma ContainerLookupByPid_SetData css cntr path name data pid :
  Domain.ContainerLookupByPid (Domain.SetData cntr path name data css) pid
  = Domain.ContainerLookupByPid css pid.
Proof.
  unfold Domain.ContainerLookupByPid, Domain.SetData; simpl.
  destruct (Domain.pidTable css !! pid) as [id|]; [|reflexivity].
  rewrite lookup_alter.
  destruct (decide (cntr = id)) as [->|]; [|reflexivity].
  destruct (Domain.cntrTable css !! id); reflexivity.
Qed.


(* ===================================================================== *)
(** * The nf_conntrack_max handler *)
(* ===================================================================== *)

Ltac go_unfold :=
  unfold Domain.bind, Domain.ret, Domain.ask, Domain.call, Domain.update,
    Domain.lookupByPid, Domain.getData, Domain.setData in *.

Ltac break_match :=
  match goal with
  | |- context [match ?x with _ => _ end] => destruct x eqn:?
  | H : context [match ?x with _ => _ end] |- _ => destruct x eqn:?
  end.

Section NfConntrackMax.
Context {Nd : Type} `{Domain.IOnode Nd}.

(** [PushFile] leaves the container state service alone. *)
Lemma PushFile_css (c : string) (v : Z) (st : Domain.HState Nd) :
  Domain.css (snd (NfConntrackMaxHandler.PushFile c v st)) = Domain.css st.
Proof.
  unfold NfConntrackMaxHandler.PushFile. go_unfold.
  repeat (break_match; simplify_eq/=; try reflexivity).
Qed.


(** C10.  Whenever [Write] returns an error, whichever it is, the container
    state service is as it was before the call, and so is every entry of
    every resource map; the byte count returned is 0. *)
Theorem Write_error_keeps_cache (pid : N) (buf : list byte)
    (st st' : Domain.HState Nd) (n : Z) (e : error) :
  NfConntrackMaxHandler.Write pid buf st = ((n, Some e), st') ->
  Domain.css st' = Domain.css st /\ n = 0.
Proof.
  unfold NfConntrackMaxHandler.Write. go_unfold.
  intros Hw.
  repeat (break_match; simplify_eq/=; try (split; reflexivity)).
  all: try (match goal with
       | E : NfConntrackMaxHandler.PushFile ?c ?v ?s = (_, ?h) |- _ =>
           pose proof (PushFile_css c v s) as P; rewrite E in P; simpl in P
       end; split; [assumption | reflexivity]).
Qed.

(** A write that succeeds was made by a registered container, returns
    [len(buf)] and stores the trimmed payload in the resource map of that
    container. *)
Lemma Write_success_cache (pid : N) (buf : list byte)
    (st st' : Domain.HState Nd) (n : Z) :
  NfConntrackMaxHandler.Write pid buf st = ((n, None), st') ->
  exists cntr,
    Domain.ContainerLookupByPid (Domain.css st) pid = Some cntr /\
    Domain.css st' =
      Domain.SetData cntr (Domain.Path (Domain.node st)) (Domain.Name (Domain.node st))
        (GoLib.TrimSpace (string_of_list_byte buf)) (Domain.css st) /\
    n = Domain.len buf.
Proof.
  unfold NfConntrackMaxHandler.Write. go_unfold.
  intros Hw.
  repeat (break_match; simplify_eq/=).
  all: eexists; split; [reflexivity|]; split; [|reflexivity].
  all: try reflexivity.
  all: match goal with
       | E : NfConntrackMaxHandler.PushFile ?c ?v ?s = (_, ?h) |- _ =>
           pose proof (PushFile_css c v s) as P; rewrite E in P; simpl in P
       end; rewrite P; reflexivity.
Qed.

(** [copyResultBuffer] hands over the whole payload when the buffer can
    hold it. *)
Lemma copyResultBuffer_fits (buf result : list byte) :
  (length result <= length buf)%nat ->
  Domain.copyResultBuffer buf result
  = (result ++ drop (length result) buf, (Domain.len result, None)).
Proof.
  intros Hle. unfold Domain.copyResultBuffer, Domain.len.
  rewrite Nat.min_r by assumption.
  rewrite firstn_all. reflexivity.
Qed.

(** A read at offset 0 that finds the resource in the resource map of the
    caller's container returns it, a newline appended. *)
Lemma Read_cached (pid : N) (buf : list byte) (st : Domain.HState Nd)
    (cntr data : string) :
  Domain.ContainerLookupByPid (Domain.css st) pid = Some cntr ->
  Domain.Data (Domain.css st) cntr (Domain.Path (Domain.node st))
    (Domain.Name (Domain.node st)) = Some data ->
  NfConntrackMaxHandler.Read pid buf 0 st
  = (Domain.copyResultBuffer buf (list_byte_of_string (data +:+ GoLib.newline)), st).
Proof.
  intros Hc Hd. unfold NfConntrackMaxHandler.Read. go_unfold.
  simpl. rewrite Hc, Hd. reflexivity.
Qed.

(** A read at offset 0 that follows a successful write, made on the same
    resource by a process of the same container, returns the payload of
    that write. *)
Lemma Read_after_Write (pid pid' : N) (wbuf rbuf : list byte)
    (st st1 st2 : Domain.HState Nd) (n : Z) :
  NfConntrackMaxHandler.Write pid wbuf st = ((n, None), st1) ->
  Spec.readsAfter pid pid' st st1 st2 ->
  NfConntrackMaxHandler.Read pid' rbuf 0 st2
  = (Domain.copyResultBuffer rbuf (Spec.payload wbuf), st2).
Proof.
  intros Hw (Hcss & Hname & Hpath & Hsame).
  destruct (Write_success_cache _ _ _ _ _ Hw) as (cntr & Hc & Hst1 & _).
  apply Read_cached with (cntr := cntr).
  - rewrite Hcss, Hsame, Hst1, ContainerLookupByPid_SetData. exact Hc.
  - rewrite Hcss, Hname, Hpath, Hst1.
    apply Data_SetData_eq. eapply ContainerLookupByPid_Some; eassumption.
Qed.

(** C2.  After a successful write of [wbuf] on the resource, a read at
    offset 0 on the same resource by a process of the same container
    returns the payload of [wbuf], that is the trimmed written value with a
    newline appended, copied into the read buffer (whole, when the buffer
    can hold it); and when a second write, of [wbuf2], succeeds after the
    first, such a read returns the payload of [wbuf2]. *)
Theorem Write_then_Read (pid pid' : N) (wbuf rbuf : list byte)
    (st st1 st2 : Domain.HState Nd) (n : Z) :
  NfConntrackMaxHandler.Write pid wbuf st = ((n, None), st1) ->
  Spec.readsAfter pid pid' st st1 st2 ->
  NfConntrackMaxHandler.Read pid' rbuf 0 st2
  = (Domain.copyResultBuffer rbuf (Spec.payload wbuf), st2) /\
  ((length (Spec.payload wbuf) <= length rbuf)%nat ->
   NfConntrackMaxHandler.Read pid' rbuf 0 st2
   = ((Spec.payload wbuf ++ drop (length (Spec.payload wbuf)) rbuf,
       (Domain.len (Spec.payload wbuf), None)), st2)) /\
  (forall (wbuf2 : list byte) (n2 : Z) (st3 st4 : Domain.HState Nd),
     NfConntrackMaxHandler.Write pid wbuf2 st1 = ((n2, None), st3) ->
     Spec.readsAfter pid pid' st1 st3 st4 ->
     NfConntrackMaxHandler.Read pid' rbuf 0 st4
     = (Domain.copyResultBuffer rbuf (Spec.payload wbuf2), st4)).
Proof.
  intros Hw Hreader.
  pose proof (Read_after_Write _ _ _ rbuf _ _ _ _ Hw Hreader) as Hread.
  split; [exact Hread|]. split.
  - intros Hfit. rewrite Hread, copyResultBuffer_fits by exact Hfit. reflexivity.
  - intros wbuf2 n2 st3 st4 Hw2 Hreader2.
    exact (Read_after_Write _ _ _ rbuf _ _ _ _ Hw2 Hreader2).
Qed.

(** C8.  A read at an offset above 0 returns 0 bytes and [io.EOF], in the
    nf_conntrack_max handler and in the neigh handler alike, whatever the
    caller, the resource map and the host hold; nothing is changed. *)
Theorem Read_positive_offset_EOF (pid : N) (buf : list byte) (off : Z)
    (req : HandlerRequest) (st : Domain.HState Nd) (IgnoreErrors : bool)
    (readFileInt : HandlerRequest ->
                   Domain.M Nd (HandlerRequest * (Z * option error))) :
  0 < off ->
  Offset req = off ->
  NfConntrackMaxHandler.Read pid buf off st = ((buf, (0, Some EOF)), st) /\
  ProcSysNetIpv4Neigh.Read IgnoreErrors readFileInt req st
  = ((req, (0, Some EOF)), st).
Proof.
  intros Hoff Hreq.
  unfold NfConntrackMaxHandler.Read, ProcSysNetIpv4Neigh.Read.
  rewrite Hreq.
  destruct (Z.ltb_spec 0 off) as [_|Hle]; [|lia].
  split; reflexivity.
Qed.

(** C6.  [Open] on nf_conntrack_max: flags that are neither read-only nor
    write-only are refused with EACCES, the node untouched; otherwise the
    host open is made, on the node as it is for read-only flags and on the
    node with its flags replaced by read-write ones for write-only flags;
    a host open that fails gives EIO, one that succeeds gives no error. *)
Theorem Open_flags (pid : N) (st : Domain.HState Nd) :
  let flags := Domain.OpenFlags (Domain.node st) in
  (flags <> Domain.O_RDONLY -> flags <> Domain.O_WRONLY ->
   NfConntrackMaxHandler.Open pid st = (Some (IOerror EACCES), st)) /\
  (flags = Domain.O_RDONLY \/ flags = Domain.O_WRONLY ->
   let n1 := if flags =? Domain.O_WRONLY
             then Domain.SetOpenFlags Domain.O_RDWR (Domain.node st)
             else Domain.node st in
   forall (n2 : Nd) (err : option error),
     Domain.Open n1 = (n2, err) ->
     NfConntrackMaxHandler.Open pid st
     = (match err with
        | Some _ => Some (IOerror EIO)
        | None => None
        end,
        {| Domain.node := n2; Domain.css := Domain.css st |})).
Proof.
  intros flags. unfold NfConntrackMaxHandler.Open. go_unfold.
  fold flags. split.
  - intros Hr Hw.
    destruct (Z.eqb_spec flags Domain.O_RDONLY); [contradiction|].
    destruct (Z.eqb_spec flags Domain.O_WRONLY); [contradiction|].
    reflexivity.
  - intros Hflags. cbv zeta. intros n2 err Hopen.
    assert (Hguard : negb (flags =? Domain.O_RDONLY)
                     && negb (flags =? Domain.O_WRONLY) = false).
    { destruct Hflags as [-> | ->]; reflexivity. }
    rewrite Hguard.
    destruct (flags =? Domain.O_WRONLY); simpl in *; rewrite Hopen;
      destruct err; reflexivity.
Qed.

(** When the container has a cached value below the new one and the push
    to the host fails, [Write] drops the error of [PushFile] and returns
    [io.EOF]; with no cached value it returns the error of [PushFile]. *)
Lemma Write_push_failure_cached (pid : N) (buf : list byte)
    (st s1 : Domain.HState Nd) (cntr cur : string) (v c : Z) (e : error) :
  GoLib.Atoi (GoLib.TrimSpace (string_of_list_byte buf)) = (v, None) ->
  Domain.ContainerLookupByPid (Domain.css st) pid = Some cntr ->
  Domain.Data (Domain.css st) cntr (Domain.Path (Domain.node st))
    (Domain.Name (Domain.node st)) = Some cur ->
  GoLib.Atoi cur = (c, None) ->
  c < v ->
  NfConntrackMaxHandler.PushFile cntr v st = (Some e, s1) ->
  NfConntrackMaxHandler.Write pid buf st = ((0, Some EOF), s1).
Proof.
  intros Hv Hc Hcur Ec Hlt Hp.
  unfold NfConntrackMaxHandler.Write. go_unfold.
  rewrite Hv, Hc, Hcur, Ec.
  destruct (Z.leb_spec v c) as [Hle|_]; [lia|].
  rewrite Hp. reflexivity.
Qed.

Lemma Write_push_failure_fresh (pid : N) (buf : list byte)
    (st s1 : Domain.HState Nd) (cntr : string) (v : Z) (e : error) :
  GoLib.Atoi (GoLib.TrimSpace (string_of_list_byte buf)) = (v, None) ->
  Domain.ContainerLookupByPid (Domain.css st) pid = Some cntr ->
  Domain.Data (Domain.css st) cntr (Domain.Path (Domain.node st))
    (Domain.Name (Domain.node st)) = None ->
  NfConntrackMaxHandler.PushFile cntr v st = (Some e, s1) ->
  NfConntrackMaxHandler.Write pid buf st = ((0, Some e), s1).
Proof.
  intros Hv Hc Hcur Hp.
  unfold NfConntrackMaxHandler.Write. go_unfold.
  rewrite Hv, Hc, Hcur, Hp. reflexivity.
Qed.

End NfConntrackMax.

(* ===================================================================== *)
(** * The nf_conntrack_max handler on the host pseudo-file *)
(* ===================================================================== *)

(** What a successful [PushFile] does to a host that holds the value [H]:
    nothing when the new value does not exceed [H], else the host holds the
    new value. *)
Lemma PushFile_host (c : string) (v H : Z)
    (st st' : Domain.HState Domain.ioFileNode) :
  GoLib.MinInt <= v <= GoLib.MaxInt ->
  GoLib.Atoi (Domain.hostLine (Domain.node st)) = (H, None) ->
  NfConntrackMaxHandler.PushFile c v st = (None, st') ->
  (v <= H /\ st' = st) \/
  (H < v /\ Domain.css st' = Domain.css st /\
   Domain.node st' = Domain.ioSetLine (GoLib.Itoa v) (Domain.node st)).
Proof.
  intros Hv HH. destruct st as [n0 c0]. simpl in HH.
  unfold NfConntrackMaxHandler.PushFile. go_unfold. simpl.
  unfold Domain.ioReadLine, Domain.ioSeekReset, Domain.ioWrite.
  destruct (Domain.readFault n0) as [e|] eqn:Er.
  - simpl. destruct (isEOF e); simpl; intros [=].
  - destruct (String.eqb_spec (Domain.hostLine n0) "") as [E|_].
    { rewrite E in HH. discriminate HH. }
    simpl. rewrite HH.
    destruct (Z.leb_spec v H) as [Hle|Hgt].
    + intros [= <-]. left. split; [assumption | reflexivity].
    + simpl. destruct (Domain.seekFault n0); simpl; [intros [=]|].
      destruct (Domain.writeFault n0); simpl; [intros [=]|].
      intros [= <-]. right. repeat split; [assumption|]. simpl.
      rewrite string_of_list_byte_of_string. reflexivity.
Qed.


(** What a successful [Write] of [v] does to a host that holds [H]: when
    the container has a cached value that [v] does not exceed, nothing;
    otherwise what [PushFile] does, nothing when [v] does not exceed [H]
    and else the replacement of the host value by [v]. *)
Lemma Write_host_exact (pid : N) (buf : list byte)
    (st st' : Domain.HState Domain.ioFileNode) (n : Z) (cntr : string) (v H : Z) :
  Domain.ContainerLookupByPid (Domain.css st) pid = Some cntr ->
  GoLib.Atoi (GoLib.TrimSpace (string_of_list_byte buf)) = (v, None) ->
  GoLib.Atoi (Domain.hostLine (Domain.node st)) = (H, None) ->
  NfConntrackMaxHandler.Write pid buf st = ((n, None), st') ->
  (exists cur c,
     Domain.Data (Domain.css st) cntr (Domain.ioPath (Domain.node st))
       (Domain.ioName (Domain.node st)) = Some cur /\
     GoLib.Atoi cur = (c, None) /\ v <= c /\
     Domain.node st' = Domain.node st) \/
  ((forall cur c,
      Domain.Data (Domain.css st) cntr (Domain.ioPath (Domain.node st))
        (Domain.ioName (Domain.node st)) = Some cur ->
      GoLib.Atoi cur = (c, None) -> c < v) /\
   ((v <= H /\ Domain.node st' = Domain.node st) \/
    (H < v /\ Domain.node st' = Domain.ioSetLine (GoLib.Itoa v) (Domain.node st)))).
Proof.
  intros Hc Hv HH.
  pose proof (Atoi_range _ _ Hv) as Hrange.
  assert (Hpush : forall s',
            NfConntrackMaxHandler.PushFile cntr v st = (None, s') ->
            (v <= H /\ Domain.node s' = Domain.node st) \/
            (H < v /\ Domain.node s' = Domain.ioSetLine (GoLib.Itoa v) (Domain.node st))).
  { intros s' Hp.
    destruct (PushFile_host cntr v H st s' Hrange HH Hp) as [[? ->]|(? & _ & ->)];
      [left | right]; auto. }
  unfold NfConntrackMaxHandler.Write. go_unfold.
  cbn [Domain.Name Domain.Path Domain.ioFileNode_IOnode].
  rewrite Hv, Hc.
  destruct (Domain.Data (Domain.css st) cntr _ _) as [cur|] eqn:Ecur.
  - destruct (GoLib.Atoi cur) as [c [e|]] eqn:Ec; [intros [=]|].
    destruct (Z.leb_spec v c) as [Hle|Hgt].
    + intros [= _ <-]. left. exists cur, c. repeat split; assumption.
    + destruct (NfConntrackMaxHandler.PushFile cntr v st) as [[e|] s1] eqn:Ep;
        [intros [=]|].
      intros [= _ <-]. simpl. right. split; [|exact (Hpush s1 eq_refl)].
      intros cur' c' [= <-] Ec'. rewrite Ec in Ec'. injection Ec' as <-.
      exact Hgt.
  - destruct (NfConntrackMaxHandler.PushFile cntr v st) as [[e|] s1] eqn:Ep;
      [intros [=]|].
    intros [= _ <-]. simpl. right. split; [|exact (Hpush s1 eq_refl)].
    intros cur' c' [=].
Qed.

(** C1, as amended.  A successful write of [v] by a registered container,
    on a host that holds [H], leaves the written value in the resource map
    of the container, and does not write the host file when [v] does not
    exceed [H], nor when it does not exceed the cached value of the
    container.  The host holds [max v H] after it in every case but one,
    and in that one it does not: the container has a cached value and [v]
    is above [H] without being above the cached value. *)
Theorem Write_monotonic_max (pid : N) (buf : list byte)
    (st st' : Domain.HState Domain.ioFileNode) (n : Z) (cntr : string) (v H : Z) :
  let path := Domain.ioPath (Domain.node st) in
  let name := Domain.ioName (Domain.node st) in
  Domain.ContainerLookupByPid (Domain.css st) pid = Some cntr ->
  GoLib.Atoi (GoLib.TrimSpace (string_of_list_byte buf)) = (v, None) ->
  GoLib.Atoi (Domain.hostLine (Domain.node st)) = (H, None) ->
  NfConntrackMaxHandler.Write pid buf st = ((n, None), st') ->
  Domain.Data (Domain.css st') cntr path name
  = Some (GoLib.TrimSpace (string_of_list_byte buf)) /\
  (v <= H -> Domain.node st' = Domain.node st) /\
  (forall cur c, Domain.Data (Domain.css st) cntr path name = Some cur ->
                 GoLib.Atoi cur = (c, None) -> v <= c ->
                 Domain.node st' = Domain.node st) /\
  (GoLib.Atoi (Domain.hostLine (Domain.node st')) = (Z.max v H, None) <->
   (forall cur c, Domain.Data (Domain.css st) cntr path name = Some cur ->
                  GoLib.Atoi cur = (c, None) -> v <= c -> v <= H)).
Proof.
  intros path name Hc Hv HH Hw.
  pose proof (Atoi_range _ _ Hv) as Hrange.
  destruct (Write_success_cache _ _ _ _ _ Hw) as (cntr' & Hc' & Hcss & _).
  rewrite Hc in Hc'. injection Hc' as <-.
  pose proof (Write_host_exact pid buf st st' n cntr v H Hc Hv HH Hw) as Hhost.
  fold path name in Hhost.
  split; [|split; [|split; [|split]]].
  - rewrite Hcss. apply Data_SetData_eq.
    eapply ContainerLookupByPid_Some; eassumption.
  - intros Hle.
    destruct Hhost as [(cur & c & _ & _ & _ & E)|[_ [[_ E]|[Hgt _]]]];
      [exact E | exact E | lia].
  - intros cur c Hcur Ec Hle.
    destruct Hhost as [(cur' & c' & _ & _ & _ & E)|[Hall _]]; [exact E|].
    pose proof (Hall cur c Hcur Ec). lia.
  - (* the host holds the maximum: the excluded case does not arise *)
    intros Hmax cur c Hcur Ec Hle.
    destruct Hhost as [(cur' & c' & _ & _ & _ & E)|[Hall _]].
    + rewrite E, HH in Hmax. injection Hmax as Hmax. lia.
    + pose proof (Hall cur c Hcur Ec). lia.
  - (* the excluded case does not arise: the host holds the maximum *)
    intros Hcase.
    destruct Hhost as [(cur & c & Hcur & Ec & Hle & E)|[_ [[Hle E]|[Hgt E]]]];
      rewrite E.
    + pose proof (Hcase cur c Hcur Ec Hle). rewrite Z.max_r by lia. exact HH.
    + rewrite Z.max_r by lia. exact HH.
    + rewrite Z.max_l by lia. simpl. apply Atoi_Itoa. exact Hrange.
Qed.

(* ===================================================================== *)
(** * The nf_conntrack_max handler on concrete requests *)
(* ===================================================================== *)

(** Scenarios 1 to 3 of the specification: the host holds 100 and [c1]
    writes 200; then [c2] writes 150; and, on a host that holds 500, [c1]
    writes 300. *)
Example scenario_1_2 :
  let st0 := Samples.state (Samples.nfNode Domain.O_RDWR "100") Samples.cssTwo in
  let '(r1, st1) := NfConntrackMaxHandler.Write 10 (Samples.b "200") st0 in
  let '(r2, st2) := NfConntrackMaxHandler.Write 20 (Samples.b "150") st1 in
  r1 = (3, None) /\ Domain.hostLine (Domain.node st1) = "200" /\
  r2 = (3, None) /\ Domain.hostLine (Domain.node st2) = "200" /\
  fst (NfConntrackMaxHandler.Read 20 (Samples.b "--------") 0 st2)
  = (Samples.b ("150" +:+ GoLib.newline +:+ "----"), (4, None)) /\
  fst (NfConntrackMaxHandler.Read 10 (Samples.b "--------") 0 st2)
  = (Samples.b ("200" +:+ GoLib.newline +:+ "----"), (4, None)).
Proof. vm_compute. repeat split; reflexivity. Qed.

Example scenario_3 :
  let st0 := Samples.state (Samples.nfNode Domain.O_RDWR "500") Samples.cssTwo in
  let '(r1, st1) := NfConntrackMaxHandler.Write 10 (Samples.b "300") st0 in
  r1 = (3, None) /\ Domain.hostLine (Domain.node st1) = "500" /\
  fst (NfConntrackMaxHandler.Read 10 (Samples.b "--------") 0 st1)
  = (Samples.b ("300" +:+ GoLib.newline +:+ "----"), (4, None)).
Proof. vm_compute. repeat split; reflexivity. Qed.

(** C1, counterexample.  The container [c1] reads the resource while the
    host holds 500, so that 500 is its cached value; the host value is
    then lowered to 100 from outside; the container writes 300.  The write
    succeeds, the cached value becoming 300, and the host is left at 100,
    which is not [max 300 100]. *)
Lemma Write_monotonic_max_counterexample :
  let st0 := Samples.state (Samples.nfNode Domain.O_RDONLY "500") (Samples.cssOne ∅) in
  let st1 := snd (NfConntrackMaxHandler.Read 10 (Samples.b "--------") 0 st0) in
  let st2 := Samples.state (Samples.nfNode Domain.O_RDWR "100") (Domain.css st1) in
  let '(r, st3) := NfConntrackMaxHandler.Write 10 (Samples.b "300") st2 in
  Domain.Data (Domain.css st2) "c1" Samples.nfPath Samples.nfName = Some "500" /\
  GoLib.Atoi (Domain.hostLine (Domain.node st2)) = (100, None) /\
  r = (3, None) /\
  Domain.Data (Domain.css st3) "c1" Samples.nfPath Samples.nfName = Some "300" /\
  GoLib.Atoi (Domain.hostLine (Domain.node st3)) = (100, None) /\
  GoLib.Atoi (Domain.hostLine (Domain.node st3)) <> (Z.max 300 100, None).
Proof. vm_compute. repeat split; try reflexivity. intros [=]. Qed.

(** C1, witness: on a host that holds 100, [c1], whose cached value is 500,
    writes 600. *)
Lemma Write_monotonic_max_witness :
  let st := Samples.state (Samples.nfNode Domain.O_RDWR "100")
              (Samples.cssOne {[ (Samples.nfPath, Samples.nfName) := "500" ]}) in
  let st' := snd (NfConntrackMaxHandler.Write 10 (Samples.b "600") st) in
  GoLib.Atoi (Domain.hostLine (Domain.node st')) = (Z.max 600 100, None) /\
  Domain.Data (Domain.css st') "c1" Samples.nfPath Samples.nfName = Some "600".
Proof.
  intros st st'.
  destruct (Write_monotonic_max 10 (Samples.b "600") st st' 3 "c1" 600 100)
    as (Hdata & _ & _ & Hhost).
  - reflexivity.
  - reflexivity.
  - reflexivity.
  - vm_compute. reflexivity.
  - split; [|exact Hdata]. apply Hhost.
    intros cur c Hcur Hc. vm_compute in Hcur. injection Hcur as <-.
    vm_compute in Hc. injection Hc as <-. lia.
Defined.

(** C7.  The container [c1] has 100 as its cached value, the host holds
    100 and refuses the write; [c1] writes 200.  [PushFile] fails with the
    error of the host, and [Write] returns [io.EOF], which is no EIO.  When
    the container has no cached value, [Write] returns the error of the
    host, which is surfaced as EIO. *)
Lemma Write_push_failure_returns_EOF :
  let hostErr := PathError "write" Samples.nfPath EIO in
  let key := (Samples.nfPath, Samples.nfName) in
  let st := Samples.state (Samples.nfNodeWriteFails "100")
              (Samples.cssOne {[ key := "100" ]}) in
  let fresh := Samples.state (Samples.nfNodeWriteFails "100") (Samples.cssOne ∅) in
  NfConntrackMaxHandler.PushFile "c1" 200 st = (Some hostErr, st) /\
  NfConntrackMaxHandler.Write 10 (Samples.b "200") st = ((0, Some EOF), st) /\
  errnoOf EOF <> Some EIO /\
  NfConntrackMaxHandler.Write 10 (Samples.b "200") fresh = ((0, Some hostErr), fresh) /\
  errnoOf hostErr = Some EIO.
Proof. vm_compute. repeat split; try reflexivity. intros [=]. Qed.

(** C10, witness: the write of 200 that the host refuses. *)
Lemma Write_error_keeps_cache_witness :
  let st := Samples.state (Samples.nfNodeWriteFails "100")
              (Samples.cssOne {[ (Samples.nfPath, Samples.nfName) := "100" ]}) in
  let st' := snd (NfConntrackMaxHandler.Write 10 (Samples.b "200") st) in
  Domain.css st' = Domain.css st /\ 0 = 0.
Proof.
  intros st st'.
  apply (Write_error_keeps_cache 10 (Samples.b "200") st st' 0 EOF).
  vm_compute. reflexivity.
Defined.

(** C2, witness: the process 10 of [c1] writes [" 200\n"] then ["150"],
    and the process 11 of [c1] reads. *)
Lemma Write_then_Read_witness :
  let wbuf := Samples.b (" 200" +:+ GoLib.newline) in
  let rbuf := Samples.b "--------" in
  let st := Samples.state (Samples.nfNode Domain.O_RDWR "100") Samples.cssTwo in
  let st1 := snd (NfConntrackMaxHandler.Write 10 wbuf st) in
  let st2 := Samples.state (Samples.nfNode Domain.O_RDONLY "200") (Domain.css st1) in
  let st3 := snd (NfConntrackMaxHandler.Write 10 (Samples.b "150") st1) in
  let st4 := Samples.state (Samples.nfNode Domain.O_RDONLY "200") (Domain.css st3) in
  Spec.payload wbuf = Samples.b ("200" +:+ GoLib.newline) /\
  NfConntrackMaxHandler.Read 11 rbuf 0 st2
  = ((Samples.b ("200" +:+ GoLib.newline +:+ "----"), (4, None)), st2) /\
  NfConntrackMaxHandler.Read 11 rbuf 0 st4
  = ((Samples.b ("150" +:+ GoLib.newline +:+ "----"), (4, None)), st4).
Proof.
  intros wbuf rbuf st st1 st2 st3 st4.
  destruct (Write_then_Read 10 11 wbuf rbuf st st1 st2 5) as (_ & Hfit & Hsecond).
  - vm_compute. reflexivity.
  - repeat split; reflexivity.
  - split; [reflexivity|]. split.
    + rewrite Hfit; [reflexivity | vm_compute; lia].
    + rewrite (Hsecond (Samples.b "150") 3 st3 st4);
        [reflexivity | vm_compute; reflexivity | repeat split; reflexivity].
Defined.

(** C8, witness: a read at offset 1. *)
Lemma Read_positive_offset_EOF_witness :
  let st := Samples.state (Samples.nfNode Domain.O_RDONLY "100") Samples.cssTwo in
  let req := Samples.request 1 (Samples.b "--------") in
  NfConntrackMaxHandler.Read 10 (Samples.b "--------") 1 st
  = ((Samples.b "--------", (0, Some EOF)), st) /\
  ProcSysNetIpv4Neigh.Read true (fun r => Domain.ret (r, (0, None))) req st
  = ((req, (0, Some EOF)), st).
Proof.
  intros st req.
  apply (Read_positive_offset_EOF 10 (Samples.b "--------") 1 req st true);
    [lia | reflexivity].
Defined.

(** C6, witness: the four cases, on the host pseudo-file. *)
Lemma Open_flags_witness :
  let st f := Samples.state (Samples.nfNode f "100") Samples.cssTwo in
  let bad f := Samples.state (Samples.nfNodeOpenFails f) Samples.cssTwo in
  NfConntrackMaxHandler.Open 10 (st Domain.O_RDWR)
  = (Some (IOerror EACCES), st Domain.O_RDWR) /\
  (let '(err, s) := NfConntrackMaxHandler.Open 10 (st Domain.O_WRONLY) in
   err = None /\ Domain.ioOpened (Domain.node s) = Some Domain.O_RDWR) /\
  (let '(err, s) := NfConntrackMaxHandler.Open 10 (st Domain.O_RDONLY) in
   err = None /\ Domain.ioOpened (Domain.node s) = Some Domain.O_RDONLY) /\
  fst (NfConntrackMaxHandler.Open 10 (bad Domain.O_WRONLY)) = Some (IOerror EIO).
Proof.
  intros st bad.
  destruct (Open_flags 10 (st Domain.O_RDWR)) as [Hdenied _].
  destruct (Open_flags 10 (st Domain.O_WRONLY)) as [_ Hw].
  destruct (Open_flags 10 (st Domain.O_RDONLY)) as [_ Hr].
  destruct (Open_flags 10 (bad Domain.O_WRONLY)) as [_ Hb].
  split; [apply Hdenied; vm_compute; intros [=]|].
  split; [erewrite Hw; [|right; reflexivity|reflexivity]; split; reflexivity|].
  split; [erewrite Hr; [|left; reflexivity|reflexivity]; split; reflexivity|].
  erewrite Hb; [|right; reflexivity|reflexivity]. reflexivity.
Defined.

(* ===================================================================== *)
(** * The premise of the amended C1 is kept by the handler *)
(* ===================================================================== *)

(** A [PushFile] that fails leaves the host as it was. *)
Lemma PushFile_error_host (c : string) (v : Z) (e : error)
    (st st' : Domain.HState Domain.ioFileNode) :
  NfConntrackMaxHandler.PushFile c v st = (Some e, st') -> st' = st.
Proof.
  destruct st as [n0 c0].
  unfold NfConntrackMaxHandler.PushFile. go_unfold. simpl.
  unfold Domain.ioReadLine, Domain.ioSeekReset, Domain.ioWrite.
  repeat (break_match; simplify_eq/=); intros; simplify_eq; reflexivity.
Qed.



(* ===================================================================== *)
(** * The fuse-server service *)
(* ===================================================================== *)

Section FuseService.
Variable Init : Fuse.fuseServer -> gset string -> gset string * option error.
Variable Destroy : Fuse.fuseServer -> gset string -> gset string * option error.
Variable mkdirFault : string -> option error.
Variable removeFault : string -> option error.

Abbreviation create := (Fuse.CreateFuseServer Init mkdirFault).
Abbreviation destroy := (Fuse.DestroyFuseServer Destroy removeFault).
Abbreviation destroy_all := (Fuse.DestroyFuseService Destroy removeFault).









(** C4, as amended.  A [CreateFuseServer] that returns an error inserts no
    entry in the server map and launches no server.  It removes nothing:
    when [Init] fails after the mountpoint directory was created, the
    directories of the host are those that [Init] left. *)
Theorem CreateFuseServer_failure (cntrId : string) (w w' : Fuse.World) (e : error) :
  create cntrId w = (w', Some e) ->
  Fuse.servers (Fuse.fss w') = Fuse.servers (Fuse.fss w) /\
  Fuse.launched w' = Fuse.launched w /\
  (forall d1 d2 e',
     Fuse.servers (Fuse.fss w) !! cntrId = None ->
     Fuse.MkdirAll mkdirFault
       (GoLib.Join (Fuse.fssMountPoint (Fuse.fss w)) cntrId) (Fuse.dirs w) = (d1, None) ->
     Init {| Fuse.path := "/";
             Fuse.mountPoint := GoLib.Join (Fuse.fssMountPoint (Fuse.fss w)) cntrId |} d1
     = (d2, Some e') ->
     e = ErrorString "FuseServer initialization error" /\
     Fuse.dirs w' = d2).
Proof.
  unfold Fuse.CreateFuseServer. intros Hc.
  destruct (Fuse.servers (Fuse.fss w) !! cntrId) as [s|] eqn:Es.
  { injection Hc as <- <-. split; [reflexivity|]. split; [reflexivity|].
    intros d1 d2 e' [=]. }
  destruct (Fuse.MkdirAll mkdirFault _ (Fuse.dirs w)) as [d1 [e1|]] eqn:Em.
  { injection Hc as <- <-. split; [reflexivity|]. split; [reflexivity|].
    intros d1' d2 e' _ [=]. }
  destruct (Init _ d1) as [d2 [e2|]] eqn:Ei; [|discriminate Hc].
  injection Hc as <- <-. split; [reflexivity|]. split; [reflexivity|].
  intros d1' d2' e' _ [= <-]. rewrite Ei. intros [= <- _].
  split; reflexivity.
Qed.

End FuseService.



(** C4, counterexample: no server is registered and no directory exists;
    the mountpoint of [c1] is created and [Init] fails.  [CreateFuseServer]
    returns its error, [c1] is not registered, and the mountpoint directory
    is on the disk. *)
Lemma CreateFuseServer_failure_counterexample :
  let w := Samples.world ∅ ∅ in
  let '(w1, err) :=
    Fuse.CreateFuseServer Samples.srvFails Samples.noFault "c1" w in
  err = Some (ErrorString "FuseServer initialization error") /\
  Fuse.servers (Fuse.fss w1) !! "c1" = None /\
  ("/var/lib/sysboxfs/c1" ∉ Fuse.dirs w) /\
  ("/var/lib/sysboxfs/c1" ∈ Fuse.dirs w1).
Proof.
  simpl. split; [reflexivity|]. split; [reflexivity|].
  split; [apply not_elem_of_empty | set_solver].
Qed.

(** C4, witness: the same failing [CreateFuseServer]. *)
Lemma CreateFuseServer_failure_witness :
  let w := Samples.world ∅ ∅ in
  let w1 := fst (Fuse.CreateFuseServer Samples.srvFails Samples.noFault "c1" w) in
  Fuse.servers (Fuse.fss w1) = Fuse.servers (Fuse.fss w) /\
  Fuse.launched w1 = Fuse.launched w /\
  Fuse.dirs w1 = {[ "/var/lib/sysboxfs/c1" ]} ∪ ∅.
Proof.
  intros w w1.
  destruct (CreateFuseServer_failure Samples.srvFails Samples.noFault "c1" w w1
              (ErrorString "FuseServer initialization error") eq_refl)
    as (Hservers & Hlaunched & Hdirs).
  split; [exact Hservers|]. split; [exact Hlaunched|].
  apply (Hdirs ({[ "/var/lib/sysboxfs/c1" ]} ∪ ∅) ({[ "/var/lib/sysboxfs/c1" ]} ∪ ∅)
           (ErrorString "fuse: mount failed")); reflexivity.
Defined.

(** Scenarios 5 and 7 of the specification: a second [CreateFuseServer]
    for the same container is refused, and [DestroyFuseServer] for a
    container without a server returns [nil] and changes nothing but the
    log. *)
Example scenario_5_7 :
  let w := Samples.world ∅ ∅ in
  let '(w1, e1) := Fuse.CreateFuseServer Samples.srvOk Samples.noFault "c1" w in
  let '(w2, e2) := Fuse.CreateFuseServer Samples.srvOk Samples.noFault "c1" w1 in
  let '(w3, e3) := Fuse.DestroyFuseServer Samples.srvOk Samples.noFault "c2" w in
  e1 = None /\ Fuse.servers (Fuse.fss w1) !! "c1" = Some Samples.srv1 /\
  Fuse.launched w1 = [Samples.srv1] /\
  e2 = Some (ErrorString "FuseServer already present") /\
  e3 = None /\ Fuse.fss w3 = Fuse.fss w /\ Fuse.dirs w3 = Fuse.dirs w.
Proof. vm_compute. repeat split; reflexivity. Qed.

(* ===================================================================== *)
(** * The host-passthrough handlers *)
(* ===================================================================== *)

Section Passthrough.
Context {Nd : Type} `{Domain.IOnode Nd}.
Variable ReadNode : Nd -> list byte -> Nd * (list byte * (Z * option error)).

(** C5, as amended.  The [Write] of the /proc/meminfo and of the
    /proc/cpuinfo handler changes nothing and returns 0 bytes and no error,
    whatever the buffer.  The [Read] of the /proc/meminfo handler returns
    what [ReadNode] read from the host file, the request data cut to the
    bytes read; the [Read] of the /proc/cpuinfo handler reads nothing. *)
Theorem passthrough_Write_returns_zero (req : HandlerRequest) (pid : N)
    (buf : list byte) (st : Domain.HState Nd) :
  ProcMeminfoHandler.Write req st = ((req, (0, None)), st) /\
  ProcCpuinfoHandler.Write pid buf st = ((0, None), st) /\
  (forall n' data len err,
     ReadNode (Domain.node st) (Data req) = (n', (data, (len, err))) ->
     err = None \/ err = Some EOF ->
     ProcMeminfoHandler.Read ReadNode req st
     = ((setReqData (take (Z.to_nat len) data) req, (len, None)),
        {| Domain.node := n'; Domain.css := Domain.css st |})) /\
  (forall off, off <= 0 ->
     ProcCpuinfoHandler.Read pid buf off st = ((buf, (0, None)), st)).
Proof.
  split; [reflexivity|]. split; [reflexivity|]. split.
  - intros n' data len err Hread Herr.
    unfold ProcMeminfoHandler.Read. go_unfold. rewrite Hread.
    destruct Herr as [-> | ->]; reflexivity.
  - intros off Hoff. unfold ProcCpuinfoHandler.Read.
    destruct (Z.ltb_spec 0 off); [lia | reflexivity].
Qed.

End Passthrough.

(** C5, counterexample: a write of the one byte ["1"] to /proc/meminfo and
    to /proc/cpuinfo returns 0, which is not the length of the buffer; and
    a read of /proc/cpuinfo at offset 0 returns no byte of the host file. *)
Lemma passthrough_Write_counterexample :
  let st := Samples.state Samples.memNode Samples.cssTwo in
  let req := Samples.request 0 (Samples.b "1") in
  ProcMeminfoHandler.Write req st = ((req, (0, None)), st) /\
  ProcCpuinfoHandler.Write 10 (Samples.b "1") st = ((0, None), st) /\
  Domain.len (Samples.b "1") = 1 /\
  fst (fst (ProcMeminfoHandler.Write req st)) = req /\
  snd (fst (ProcMeminfoHandler.Write req st)) <> (Domain.len (Data req), None) /\
  ProcCpuinfoHandler.Read 10 (Samples.b "----") 0 st
  = ((Samples.b "----", (0, None)), st).
Proof.
  intros st req. repeat split. intros [=].
Qed.

(** C5, witness: a read of /proc/meminfo into a buffer of 12 bytes. *)
Lemma passthrough_Write_returns_zero_witness :
  let st := Samples.state Samples.memNode Samples.cssTwo in
  let req := Samples.request 0 (Samples.b "------------") in
  ProcMeminfoHandler.Write req st = ((req, (0, None)), st) /\
  ProcMeminfoHandler.Read Domain.ioReadNode req st
  = ((setReqData (Samples.b "MemTotal: 16") req, (12, None)), st).
Proof.
  intros st req.
  destruct (passthrough_Write_returns_zero Domain.ioReadNode req 10 (Samples.b "1") st)
    as (Hw & _ & Hr & _).
  split; [exact Hw|].
  rewrite (Hr Samples.memNode (Samples.b "MemTotal: 16") 12 None);
    [reflexivity | reflexivity | left; reflexivity].
Defined.

(* ===================================================================== *)
(** * The neigh handler *)
(* ===================================================================== *)

(** The entry that the first arm of the loop of [ReadDirAll] appends. *)
Lemma rangeBody_eq (Now : string -> Z) (relpath : string)
    (entries : list ProcSysNetIpv4Neigh.FileInfo) (k : string) :
  ProcSysNetIpv4Neigh.rangeBody Now relpath entries k
  = entries ++
    (if String.eqb relpath (GoLib.Dir k)
     then [ {| ProcSysNetIpv4Neigh.Fname := GoLib.Base k;
               ProcSysNetIpv4Neigh.Fmode := ProcSysNetIpv4Neigh.ModeDir;
               ProcSysNetIpv4Neigh.FmodTime := Now k;
               ProcSysNetIpv4Neigh.FisDir := true |} ]
     else []).
Proof.
  unfold ProcSysNetIpv4Neigh.rangeBody, ProcSysNetIpv4Neigh.rangeArm.
  destruct (String.eqb relpath (GoLib.Dir k)); [reflexivity|].
  rewrite andb_false_r, app_nil_r. reflexivity.
Qed.

(** C9.  In the loop of [ReadDirAll] the second arm never runs, whatever
    the relative path and the key; the loop appends, for each key whose
    parent directory is the relative path, and for no other key, the entry
    of the first arm. *)
Theorem ReadDirAll_second_arm_unreachable (Now : string -> Z) (relpath k : string)
    (entries : list ProcSysNetIpv4Neigh.FileInfo) (keys : list string) :
  ProcSysNetIpv4Neigh.rangeArm relpath k <> ProcSysNetIpv4Neigh.SecondArm /\
  ProcSysNetIpv4Neigh.rangeArm relpath k
  = (if String.eqb relpath (GoLib.Dir k)
     then ProcSysNetIpv4Neigh.FirstArm else ProcSysNetIpv4Neigh.NoArm) /\
  fold_left (ProcSysNetIpv4Neigh.rangeBody Now relpath) keys entries
  = entries ++
    List.map
      (fun k => {| ProcSysNetIpv4Neigh.Fname := GoLib.Base k;
                   ProcSysNetIpv4Neigh.Fmode := ProcSysNetIpv4Neigh.ModeDir;
                   ProcSysNetIpv4Neigh.FmodTime := Now k;
                   ProcSysNetIpv4Neigh.FisDir := true |})
      (List.filter (fun k => String.eqb relpath (GoLib.Dir k)) keys).
Proof.
  assert (Harm : ProcSysNetIpv4Neigh.rangeArm relpath k
                 = (if String.eqb relpath (GoLib.Dir k)
                    then ProcSysNetIpv4Neigh.FirstArm
                    else ProcSysNetIpv4Neigh.NoArm)).
  { unfold ProcSysNetIpv4Neigh.rangeArm.
    destruct (String.eqb relpath (GoLib.Dir k)); [reflexivity|].
    rewrite andb_false_r. reflexivity. }
  split; [|split; [exact Harm|]].
  - rewrite Harm. destruct (String.eqb relpath (GoLib.Dir k)); discriminate.
  - revert entries. induction keys as [|k' keys IH]; intros entries; simpl.
    + rewrite app_nil_r. reflexivity.
    + rewrite IH, rangeBody_eq.
      destruct (String.eqb relpath (GoLib.Dir k')); simpl.
      * rewrite <- app_assoc. reflexivity.
      * rewrite app_nil_r. reflexivity.
Qed.

(** The emulated children of the neigh directory and of [default]. *)
Example ReadDirAll_emulated :
  let keys := ["default/gc_thresh2"; "default"; "default/gc_thresh1";
               "default/gc_thresh3"] in
  let req := Samples.request 0 [] in
  let names r := List.map ProcSysNetIpv4Neigh.Fname r in
  list_to_set keys = dom ProcSysNetIpv4Neigh.EmuNodesMap /\
  length keys = size ProcSysNetIpv4Neigh.EmuNodesMap /\
  names (fst (ProcSysNetIpv4Neigh.ReadDirAll (fun _ => 0) req (".", None) keys
                (Some ([], None))))
  = ["default"] /\
  names (fst (ProcSysNetIpv4Neigh.ReadDirAll (fun _ => 0) req ("default", None) keys
                (Some ([], None))))
  = ["gc_thresh2"; "gc_thresh1"; "gc_thresh3"].
Proof.
  intros keys req names. split; [|split; [|split]]; reflexivity.
Qed.

(* ===================================================================== *)
(** * The fuse-server service: creation, destruction and their composition *)
(* ===================================================================== *)

Section FuseLifecycle.
Variable Init : Fuse.fuseServer -> gset string -> gset string * option error.
Variable Destroy : Fuse.fuseServer -> gset string -> gset string * option error.
Variable mkdirFault : string -> option error.
Variable removeFault : string -> option error.

Abbreviation create := (Fuse.CreateFuseServer Init mkdirFault).
Abbreviation destroy := (Fuse.DestroyFuseServer Destroy removeFault).
Abbreviation destroy_all := (Fuse.DestroyFuseService Destroy removeFault).

(** The server that [CreateFuseServer] builds for a container. *)
Abbreviation serverOf w cntrId :=
  {| Fuse.path := "/";
     Fuse.mountPoint := GoLib.Join (Fuse.fssMountPoint (Fuse.fss w)) cntrId |}.

(** What a [CreateFuseServer] that succeeds has found and done. *)
Lemma CreateFuseServer_ok (cntrId : string) (w w' : Fuse.World) :
  create cntrId w = (w', None) ->
  Fuse.servers (Fuse.fss w) !! cntrId = None /\
  mkdirFault (GoLib.Join (Fuse.fssMountPoint (Fuse.fss w)) cntrId) = None /\
  exists d2,
    Init (serverOf w cntrId)
      ({[ GoLib.Join (Fuse.fssMountPoint (Fuse.fss w)) cntrId ]} ∪ Fuse.dirs w)
    = (d2, None) /\
    w' = {| Fuse.fss :=
              {| Fuse.fssMountPoint := Fuse.fssMountPoint (Fuse.fss w);
                 Fuse.servers := <[cntrId := serverOf w cntrId]> (Fuse.servers (Fuse.fss w)) |};
            Fuse.dirs := d2;
            Fuse.launched := Fuse.launched w ++ [serverOf w cntrId];
            Fuse.logs := Fuse.logs w |}.
Proof.
  unfold Fuse.CreateFuseServer, Fuse.MkdirAll. intros Hc.
  destruct (Fuse.servers (Fuse.fss w) !! cntrId); [discriminate Hc|].
  destruct (mkdirFault _); [discriminate Hc|].
  destruct (Init _ _) as [d2 [e|]] eqn:Ei; [discriminate Hc|].
  injection Hc as <-. repeat split. exists d2. split; reflexivity.
Qed.

(** X1.  [CreateFuseServer] returns [nil] exactly when the container has no
    server yet, the host creates the mountpoint and [Init] succeeds; the
    server is then registered under the container, rooted at ["/"] and
    mounted at the base mountpoint joined with the container id, it is
    launched once, and every other entry of the map is as before. *)
Theorem CreateFuseServer_success (cntrId : string) (w w' : Fuse.World) :
  create cntrId w = (w', None) <->
  Fuse.servers (Fuse.fss w) !! cntrId = None /\
  mkdirFault (GoLib.Join (Fuse.fssMountPoint (Fuse.fss w)) cntrId) = None /\
  exists d2,
    Init (serverOf w cntrId)
      ({[ GoLib.Join (Fuse.fssMountPoint (Fuse.fss w)) cntrId ]} ∪ Fuse.dirs w)
    = (d2, None) /\
    w' = {| Fuse.fss :=
              {| Fuse.fssMountPoint := Fuse.fssMountPoint (Fuse.fss w);
                 Fuse.servers := <[cntrId := serverOf w cntrId]> (Fuse.servers (Fuse.fss w)) |};
            Fuse.dirs := d2;
            Fuse.launched := Fuse.launched w ++ [serverOf w cntrId];
            Fuse.logs := Fuse.logs w |}.
Proof.
  split; [apply CreateFuseServer_ok|].
  intros (Hs & Hm & d2 & Hi & ->).
  unfold Fuse.CreateFuseServer, Fuse.MkdirAll.
  rewrite Hs, Hm, Hi. reflexivity.
Qed.

(** X2.  At most one server per container: once [CreateFuseServer] has
    succeeded for a container, a second call for it is refused with
    "FuseServer already present"; it logs one line and leaves the map,
    the directories and the launched servers as they were. *)
Theorem CreateFuseServer_twice (cntrId : string) (w w1 : Fuse.World) :
  create cntrId w = (w1, None) ->
  create cntrId w1
  = (Fuse.Errorf
       ("FuseServer to create is already present for container id " +:+ cntrId) w1,
     Some (ErrorString "FuseServer already present")).
Proof.
  intros Hc. apply CreateFuseServer_ok in Hc as (_ & _ & d2 & _ & ->).
  unfold Fuse.CreateFuseServer. simpl. rewrite lookup_insert_eq. reflexivity.
Qed.

(** X3.  [DestroyFuseServer] never returns an error, launches nothing, never
    adds an entry to the map and never changes the base mountpoint; for a
    container without a server it changes nothing but the log. *)
Theorem DestroyFuseServer_swallows_errors (cntrId : string) (w : Fuse.World) :
  snd (destroy cntrId w) = None /\
  Fuse.launched (fst (destroy cntrId w)) = Fuse.launched w /\
  Fuse.fssMountPoint (Fuse.fss (fst (destroy cntrId w)))
  = Fuse.fssMountPoint (Fuse.fss w) /\
  Fuse.servers (Fuse.fss (fst (destroy cntrId w))) ⊆ Fuse.servers (Fuse.fss w) /\
  (Fuse.servers (Fuse.fss w) !! cntrId = None ->
   destroy cntrId w
   = (Fuse.Errorf
        ("FuseServer to destroy is not present for container id " +:+ cntrId) w,
      None)).
Proof.
  unfold Fuse.DestroyFuseServer.
  destruct (Fuse.servers (Fuse.fss w) !! cntrId) as [srv|] eqn:Es.
  - destruct (Destroy srv (Fuse.dirs w)) as [d1 [e|]];
      [repeat split; try reflexivity; intros [=]|].
    destruct (Fuse.Remove removeFault _ d1) as [d2 [e|]]; simpl.
    + repeat split; try reflexivity. intros [=].
    + split; [reflexivity|]. split; [reflexivity|]. split; [reflexivity|].
      split; [apply delete_subseteq | intros [=]].
  - repeat split; reflexivity.
Qed.

(** X4.  Creation then destruction is a round trip on the server map: when
    [CreateFuseServer] succeeds and the [Destroy] of the new server and the
    removal of its mountpoint succeed, [DestroyFuseServer] gives back the
    map that [CreateFuseServer] found, the mountpoint directory is gone,
    and a second [DestroyFuseServer] only logs that there is no server. *)
Theorem Create_then_Destroy (cntrId : string) (w w1 : Fuse.World)
    (d d' : gset string) :
  let mp := GoLib.Join (Fuse.fssMountPoint (Fuse.fss w)) cntrId in
  create cntrId w = (w1, None) ->
  Destroy (serverOf w cntrId) (Fuse.dirs w1) = (d, None) ->
  Fuse.Remove removeFault mp d = (d', None) ->
  let w2 := fst (destroy cntrId w1) in
  Fuse.servers (Fuse.fss w2) = Fuse.servers (Fuse.fss w) /\
  Fuse.dirs w2 = d ∖ {[ mp ]} /\
  (mp ∉ Fuse.dirs w2) /\
  destroy cntrId w2
  = (Fuse.Errorf
       ("FuseServer to destroy is not present for container id " +:+ cntrId) w2,
     None).
Proof.
  intros mp Hc Hd Hr.
  apply CreateFuseServer_ok in Hc as (Hs & _ & d2 & _ & ->).
  simpl in Hd. unfold Fuse.DestroyFuseServer at 1 2. simpl.
  rewrite lookup_insert_eq, Hd. fold mp. rewrite Hr. simpl.
  assert (Hd' : d' = d ∖ {[ mp ]}).
  { revert Hr. unfold Fuse.Remove. destruct (removeFault mp); [intros [=]|].
    destruct (decide (mp ∈ d)); intros [=]. congruence. }
  split; [apply delete_insert_id; exact Hs|].
  split; [exact Hd'|]. split; [rewrite Hd'; apply not_elem_of_difference; right;
          apply elem_of_singleton; reflexivity|].
  unfold Fuse.DestroyFuseServer. simpl.
  rewrite lookup_delete_eq. reflexivity.
Qed.

(** X5.  [DestroyFuseService] de-registers every server when no step can fail:
    the [Destroy] of a server succeeds and leaves the directories alone,
    the host refuses no removal, every registered server has its
    mountpoint directory, two registered containers do not share a
    mountpoint, and the loop visits every registered container.  The
    mountpoint directories of the servers are then gone as well. *)
Theorem DestroyFuseService_empties (keys : list string) (w : Fuse.World) :
  let mp k := GoLib.Join (Fuse.fssMountPoint (Fuse.fss w)) k in
  (forall s d, Destroy s d = (d, None)) ->
  (forall p, removeFault p = None) ->
  (forall k, is_Some (Fuse.servers (Fuse.fss w) !! k) -> mp k ∈ Fuse.dirs w) ->
  (forall k k', is_Some (Fuse.servers (Fuse.fss w) !! k) ->
                is_Some (Fuse.servers (Fuse.fss w) !! k') ->
                mp k = mp k' -> k = k') ->
  (forall k, is_Some (Fuse.servers (Fuse.fss w) !! k) -> k ∈ keys) ->
  Fuse.servers (Fuse.fss (destroy_all keys w)) = ∅ /\
  (forall k, is_Some (Fuse.servers (Fuse.fss w) !! k) ->
             mp k ∉ Fuse.dirs (destroy_all keys w)).
Proof.
  intros mp HD HR.
  (* the state of the loop: what is still registered was registered at the
     start and has its directory; what was registered and is no longer has
     lost its directory *)
  set (m0 := Fuse.servers (Fuse.fss w)).
  assert (Hloop : forall ks w1,
    Fuse.fssMountPoint (Fuse.fss w1) = Fuse.fssMountPoint (Fuse.fss w) ->
    Fuse.servers (Fuse.fss w1) ⊆ m0 ->
    (forall k, is_Some (Fuse.servers (Fuse.fss w1) !! k) -> mp k ∈ Fuse.dirs w1) ->
    (forall k, is_Some (m0 !! k) -> Fuse.servers (Fuse.fss w1) !! k = None ->
               mp k ∉ Fuse.dirs w1) ->
    (forall k k', is_Some (m0 !! k) -> is_Some (m0 !! k') -> mp k = mp k' -> k = k') ->
    let w2 := destroy_all ks w1 in
    Fuse.servers (Fuse.fss w2) ⊆ Fuse.servers (Fuse.fss w1) /\
    (forall k, k ∈ ks -> Fuse.servers (Fuse.fss w2) !! k = None) /\
    (forall k, is_Some (m0 !! k) -> Fuse.servers (Fuse.fss w2) !! k = None ->
               mp k ∉ Fuse.dirs w2)).
  { induction ks as [|k ks IH]; intros w1 Hmp Hsub Hdir Hgone Hinj; simpl.
    - split; [reflexivity|]. split; [|exact Hgone].
      intros k Hk. apply elem_of_nil in Hk. destruct Hk.
    - destruct (Fuse.servers (Fuse.fss w1) !! k) as [srv|] eqn:Ek.
      + (* the server of [k] is destroyed and its directory removed *)
        assert (Hstep : fst (destroy k w1)
                        = Fuse.setServers (delete k (Fuse.servers (Fuse.fss w1)))
                            (Fuse.setDirs (Fuse.dirs w1 ∖ {[ mp k ]}) w1)).
        { unfold Fuse.DestroyFuseServer, Fuse.Remove.
          rewrite Ek, HD, HR, Hmp. fold (mp k).
          destruct (decide (mp k ∈ Fuse.dirs w1)) as [_|Hn]; [reflexivity|].
          destruct Hn. apply Hdir. rewrite Ek. eauto. }
        rewrite Hstep.
        assert (Hk0 : is_Some (m0 !! k)).
        { eapply lookup_weaken_is_Some; [|exact Hsub]. rewrite Ek. eauto. }
        destruct (IH (Fuse.setServers (delete k (Fuse.servers (Fuse.fss w1)))
                        (Fuse.setDirs (Fuse.dirs w1 ∖ {[ mp k ]}) w1)))
          as (Hsub2 & Hnone & Hgone2); simpl.
        * exact Hmp.
        * etrans; [apply delete_subseteq | exact Hsub].
        * intros k' Hk'. apply lookup_delete_is_Some in Hk' as [Hne Hk'].
          apply elem_of_difference. split; [apply Hdir; exact Hk'|].
          intros Heq%elem_of_singleton. apply Hne. symmetry.
          apply Hinj; [|exact Hk0|exact Heq].
          eapply lookup_weaken_is_Some; [exact Hk'|exact Hsub].
        * intros k' Hk0' Hnone'.
          intros [Hin Hnot]%elem_of_difference.
          destruct (decide (k = k')) as [->|Hne].
          { apply Hnot, elem_of_singleton. reflexivity. }
          rewrite lookup_delete_ne in Hnone' by exact Hne.
          exact (Hgone k' Hk0' Hnone' Hin).
        * exact Hinj.
        * split; [etrans; [exact Hsub2 | apply delete_subseteq]|].
          split; [|exact Hgone2].
          intros k' [->|Hin]%elem_of_cons; [|apply Hnone; exact Hin].
          eapply lookup_weaken_None; [|exact Hsub2]. apply lookup_delete_eq.
      + destruct (IH w1 Hmp Hsub Hdir Hgone Hinj) as (Hsub2 & Hnone & Hgone2).
        split; [exact Hsub2|]. split; [|exact Hgone2].
        intros k' [->|Hin]%elem_of_cons; [|apply Hnone; exact Hin].
        eapply lookup_weaken_None; [exact Ek | exact Hsub2]. }
  subst m0. intros Hdirs Hinj Hkeys.
  destruct (Hloop keys w eq_refl) as (Hsub & Hnone & Hgone); try assumption.
  - reflexivity.
  - intros k Hk Hn. rewrite Hn in Hk. destruct Hk as [? [=]].
  - assert (Hempty : Fuse.servers (Fuse.fss (destroy_all keys w)) = ∅).
    { apply map_eq. intros k. rewrite lookup_empty.
      destruct (Fuse.servers (Fuse.fss w) !! k) as [s|] eqn:Ek.
      - apply Hnone, Hkeys. rewrite Ek. eauto.
      - eapply lookup_weaken_None; [exact Ek | exact Hsub]. }
    split; [exact Hempty|].
    intros k Hk. apply Hgone; [exact Hk|]. rewrite Hempty. apply lookup_empty.
Qed.

End FuseLifecycle.

(* ===================================================================== *)
(** * The nf_conntrack_max handler: fetches, reads and refusals *)
(* ===================================================================== *)

(** The error of [strconv.Atoi] is a [*strconv.NumError]. *)
Lemma Atoi_error (s : string) (v : Z) (e : error) :
  GoLib.Atoi s = (v, Some e) -> exists k, e = NumError "Atoi" s k.
Proof.
  unfold GoLib.Atoi.
  destruct (match s with
            | String "-"%char r => (true, r)
            | String "+"%char r => (false, r)
            | _ => (false, s)
            end) as [neg digits].
  destruct (NilZero.uint_of_string digits) as [d|];
    [|intros [= _ <-]; eexists; reflexivity].
  cbv zeta.
  destruct (_ <? GoLib.MinInt); [intros [= _ <-]; eexists; reflexivity|].
  destruct (GoLib.MaxInt <? _); [intros [= _ <-]; eexists; reflexivity|].
  intros [=].
Qed.

(** [SetData] changes one entry of one resource map. *)
Lemma Data_SetData_other (css : Domain.ContainerStateService)
    (cntr cntr' path name path' name' data : string) :
  cntr <> cntr' \/ (path, name) <> (path', name') ->
  Domain.Data (Domain.SetData cntr path name data css) cntr' path' name'
  = Domain.Data css cntr' path' name'.
Proof.
  intros Hne. unfold Domain.Data, Domain.SetData; simpl.
  rewrite lookup_alter.
  destruct (decide (cntr = cntr')) as [->|]; [|reflexivity].
  destruct (Domain.cntrTable css !! cntr') as [c|]; [|reflexivity].
  simpl. destruct Hne as [Hne|Hne]; [congruence|].
  apply lookup_insert_ne. exact Hne.
Qed.

Section NfConntrackMaxCss.
Context {Nd : Type} `{Domain.IOnode Nd}.

(** [FetchFile] leaves the container state service alone. *)
Lemma FetchFile_css (c : string) (st st' : Domain.HState Nd)
    (r : string * option error) :
  NfConntrackMaxHandler.FetchFile c st = (r, st') ->
  Domain.css st' = Domain.css st.
Proof.
  unfold NfConntrackMaxHandler.FetchFile. go_unfold.
  repeat (break_match; simplify_eq/=); intros; simplify_eq; reflexivity.
Qed.

(** A [Write] that fails leaves the container state service alone. *)
Lemma Write_error_css (pid : N) (buf : list byte) (n : Z) (e : error)
    (st st' : Domain.HState Nd) :
  NfConntrackMaxHandler.Write pid buf st = ((n, Some e), st') ->
  Domain.css st' = Domain.css st.
Proof.
  unfold NfConntrackMaxHandler.Write. go_unfold.
  intros Hw.
  repeat (break_match; simplify_eq/=; try reflexivity).
  all: match goal with
       | E : NfConntrackMaxHandler.PushFile ?c ?v ?s = (_, ?h) |- _ =>
           pose proof (PushFile_css c v s) as P; rewrite E in P; exact P
       end.
Qed.

End NfConntrackMaxCss.

Section NfConntrackMaxMore.
Context {Nd : Type} `{Domain.IOnode Nd}.

(** X6.  [FetchFile] validates what it reads: with a [nil] error it returns the
    line that [ReadLine] gave, which parses as an integer; with an error
    it returns the empty string, and the error is never [io.EOF], an
    end-of-file from [ReadLine] being let through to the parse.  The
    container state service is not touched. *)
Theorem FetchFile_validates (c : string) (st st' : Domain.HState Nd)
    (data : string) (err : option error) :
  NfConntrackMaxHandler.FetchFile c st = ((data, err), st') ->
  Domain.css st' = Domain.css st /\
  match err with
  | None =>
      (exists v, GoLib.Atoi data = (v, None)) /\
      fst (snd (Domain.ReadLine (Domain.node st))) = data
  | Some e => data = "" /\ e <> EOF
  end.
Proof.
  unfold NfConntrackMaxHandler.FetchFile. go_unfold.
  destruct (Domain.ReadLine (Domain.node st)) as [n1 [line rerr]]; simpl.
  assert (Hparse :
    (let '(_, err0) := GoLib.Atoi line in
     match err0 with
     | Some e => fun s => (("", Some e), s)
     | None => fun s => ((line, None), s)
     end) {| Domain.node := n1; Domain.css := Domain.css st |}
    = ((data, err), st') ->
    Domain.css st' = Domain.css st /\
    match err with
    | None => (exists v, GoLib.Atoi data = (v, None)) /\ line = data
    | Some e => data = "" /\ e <> EOF
    end).
  { destruct (GoLib.Atoi line) as [v [e|]] eqn:Ea; intros [= <- <- <-];
      (split; [reflexivity|]).
    - split; [reflexivity|]. apply Atoi_error in Ea as [k ->]. discriminate.
    - split; [eexists; exact Ea | reflexivity]. }
  destruct rerr as [e|]; [destruct e|]; simpl; try exact Hparse.
  all: intros [= <- <- <-]; split; [reflexivity|]; split;
    [reflexivity | discriminate].
Qed.

(** X7.  A read at an offset that is not above 0 and that returns no error has
    found, or has put, the resource in the resource map of the caller's
    container; the bytes it returns are that value and a newline.  From
    then on every such read by a process of the container returns the same
    payload and leaves the node and the container state service alone,
    whatever the host holds by then. *)
Theorem Read_then_Read (pid pid' : N) (buf rbuf : list byte) (off : Z)
    (st st' st2 : Domain.HState Nd) (out : list byte) (n : Z) :
  off <= 0 ->
  NfConntrackMaxHandler.Read pid buf off st = ((out, (n, None)), st') ->
  Spec.readsAfter pid pid' st st' st2 ->
  exists cntr data,
    Domain.ContainerLookupByPid (Domain.css st) pid = Some cntr /\
    Domain.Data (Domain.css st') cntr (Domain.Path (Domain.node st))
      (Domain.Name (Domain.node st)) = Some data /\
    (out, (n, None : option error))
    = Domain.copyResultBuffer buf (list_byte_of_string (data +:+ GoLib.newline)) /\
    NfConntrackMaxHandler.Read pid' rbuf 0 st2
    = (Domain.copyResultBuffer rbuf (list_byte_of_string (data +:+ GoLib.newline)),
       st2).
Proof.
  intros Hoff Hr (Hcss & Hname & Hpath & Hsame).
  assert (Hfirst : exists cntr data,
    Domain.ContainerLookupByPid (Domain.css st) pid = Some cntr /\
    Domain.ContainerLookupByPid (Domain.css st') pid = Some cntr /\
    Domain.Data (Domain.css st') cntr (Domain.Path (Domain.node st))
      (Domain.Name (Domain.node st)) = Some data /\
    (out, (n, None : option error))
    = Domain.copyResultBuffer buf (list_byte_of_string (data +:+ GoLib.newline))).
  { revert Hr. unfold NfConntrackMaxHandler.Read. go_unfold.
    destruct (Z.ltb_spec 0 off) as [?|_]; [lia|].
    destruct (Domain.ContainerLookupByPid (Domain.css st) pid) as [cntr|] eqn:Ec;
      [|intros [=]].
    destruct (Domain.Data (Domain.css st) cntr _ _) as [data|] eqn:Ed.
    - intros [Hout <-]%pair_equal_spec. exists cntr, data.
      split; [reflexivity|]. split; [exact Ec|]. split; [exact Ed|].
      symmetry. exact Hout.
    - destruct (NfConntrackMaxHandler.FetchFile cntr st) as [[data err] s1] eqn:Ef.
      apply FetchFile_css in Ef as Hcss1.
      destruct (notNilNotEOF err) eqn:En;
        [intros [= _ _ -> _]; discriminate En|]. simpl.
      intros [Hout <-]%pair_equal_spec. simpl. exists cntr, data.
      split; [reflexivity|]. rewrite Hcss1.
      split; [rewrite ContainerLookupByPid_SetData; exact Ec|].
      split; [apply Data_SetData_eq; eapply ContainerLookupByPid_Some; exact Ec|].
      symmetry. exact Hout. }
  destruct Hfirst as (cntr & data & Hc & Hc' & Hd & Hout).
  exists cntr, data. split; [exact Hc|]. split; [exact Hd|]. split; [exact Hout|].
  apply Read_cached with (cntr := cntr).
  - rewrite Hcss, Hsame. exact Hc'.
  - rewrite Hcss, Hname, Hpath. exact Hd.
Qed.

(** X8.  [Write] and [Read] refuse a caller that no registered container holds:
    they return 0 bytes and an error and change nothing, neither the node
    nor the container state service.  [Write] parses the payload first, so
    that its error is the one of [strconv.Atoi] when the payload is not an
    integer and "Container not found" otherwise. *)
Theorem unregistered_caller_refused (pid : N) (buf : list byte) (off : Z)
    (st : Domain.HState Nd) :
  Domain.ContainerLookupByPid (Domain.css st) pid = None ->
  NfConntrackMaxHandler.Write pid buf st
  = ((0, Some match snd (GoLib.Atoi (GoLib.TrimSpace (string_of_list_byte buf))) with
              | Some e => e
              | None => ErrorString "Container not found"
              end), st) /\
  (off <= 0 ->
   NfConntrackMaxHandler.Read pid buf off st
   = ((buf, (0, Some (ErrorString "Container not found"))), st)).
Proof.
  intros Hc. split.
  - unfold NfConntrackMaxHandler.Write. go_unfold.
    destruct (GoLib.Atoi _) as [v [e|]]; simpl; [reflexivity|].
    rewrite Hc. reflexivity.
  - intros Hoff. unfold NfConntrackMaxHandler.Read. go_unfold.
    destruct (Z.ltb_spec 0 off) as [?|_]; [lia|].
    rewrite Hc. reflexivity.
Qed.

End NfConntrackMaxMore.

Section NfConntrackMaxIsolation.
Context {Nd : Type} `{Domain.IOnode Nd}.

(** What a call of the handler leaves of the container state service. *)
Lemma css_cases (st st' : Domain.HState Nd) (pid : N) :
  (exists (buf : list byte) r, NfConntrackMaxHandler.Write pid buf st = (r, st')) \/
  (exists (buf : list byte) off r,
     NfConntrackMaxHandler.Read pid buf off st = (r, st')) ->
  Domain.css st' = Domain.css st \/
  exists cntr data,
    Domain.ContainerLookupByPid (Domain.css st) pid = Some cntr /\
    Domain.css st'
    = Domain.SetData cntr (Domain.Path (Domain.node st))
        (Domain.Name (Domain.node st)) data (Domain.css st).
Proof.
  intros [(buf & [n [e|]] & Hw)|(buf & off & r & Hr)].
  - left. apply Write_error_css in Hw. exact Hw.
  - right. destruct (Write_success_cache _ _ _ _ _ Hw) as (cntr & Hc & Hcss & _).
    eauto.
  - revert Hr. unfold NfConntrackMaxHandler.Read. go_unfold.
    destruct (0 <? off); [intros [= _ <-]; left; reflexivity|].
    destruct (Domain.ContainerLookupByPid (Domain.css st) pid) as [cntr|] eqn:Ec;
      [|intros [= _ <-]; left; reflexivity].
    destruct (Domain.Data (Domain.css st) cntr _ _) as [data|];
      [intros [_ <-]%pair_equal_spec; left; reflexivity|].
    destruct (NfConntrackMaxHandler.FetchFile cntr st) as [[data err] s1] eqn:Ef.
    apply FetchFile_css in Ef.
    destruct (notNilNotEOF err); [intros [= _ <-]; left; exact Ef|]. simpl.
    intros [_ <-]%pair_equal_spec. right. exists cntr, data. simpl.
    rewrite Ef. split; reflexivity.
Qed.

(** X9.  Containers are isolated from one another, and so are the resources of
    one container: a [Write] or a [Read] made by a process changes at most
    the entry of the resource of its node in the resource map of the
    container of that process.  Every other entry of every resource map
    is as before, and so is the container that each process belongs to. *)
Theorem handler_touches_only_own_entry (pid : N) (st st' : Domain.HState Nd) :
  (exists (buf : list byte) r, NfConntrackMaxHandler.Write pid buf st = (r, st')) \/
  (exists (buf : list byte) off r,
     NfConntrackMaxHandler.Read pid buf off st = (r, st')) ->
  (forall pid', Domain.ContainerLookupByPid (Domain.css st') pid'
                = Domain.ContainerLookupByPid (Domain.css st) pid') /\
  (forall cntr' path name,
     Domain.ContainerLookupByPid (Domain.css st) pid <> Some cntr' \/
     (Domain.Path (Domain.node st), Domain.Name (Domain.node st)) <> (path, name) ->
     Domain.Data (Domain.css st') cntr' path name
     = Domain.Data (Domain.css st) cntr' path name).
Proof.
  intros Hcall.
  destruct (css_cases _ _ _ Hcall) as [-> | (cntr & data & Hc & ->)];
    [split; reflexivity|].
  split.
  - intros pid'. apply ContainerLookupByPid_SetData.
  - intros cntr' path name Hne. apply Data_SetData_other.
    destruct Hne as [Hne|Hne]; [left; congruence | right; exact Hne].
Qed.

End NfConntrackMaxIsolation.

(* ===================================================================== *)
(** * The nf_conntrack_max handler and the value of the host *)
(* ===================================================================== *)

(** [PushFile] either leaves the node as it is, or finds on the host an
    integer below the new value and replaces it by the new value. *)
Lemma PushFile_cases (c : string) (v : Z) (err : option error)
    (st st' : Domain.HState Domain.ioFileNode) :
  NfConntrackMaxHandler.PushFile c v st = (err, st') ->
  Domain.css st' = Domain.css st /\
  (Domain.node st' = Domain.node st \/
   exists H, GoLib.Atoi (Domain.hostLine (Domain.node st)) = (H, None) /\
             H < v /\ err = None /\
             Domain.node st' = Domain.ioSetLine (GoLib.Itoa v) (Domain.node st)).
Proof.
  intros Hp. split.
  { pose proof (PushFile_css c v st) as P. rewrite Hp in P. exact P. }
  destruct err as [e|].
  { left. apply PushFile_error_host in Hp. rewrite Hp. reflexivity. }
  revert Hp. destruct st as [n0 c0].
  unfold NfConntrackMaxHandler.PushFile. go_unfold. simpl.
  unfold Domain.ioReadLine, Domain.ioSeekReset, Domain.ioWrite.
  destruct (Domain.readFault n0) as [e|].
  { simpl. destruct (isEOF e); simpl; intros [=]. }
  destruct (String.eqb (Domain.hostLine n0) ""); simpl; [intros [=]|].
  destruct (GoLib.Atoi (Domain.hostLine n0)) as [H [e|]] eqn:EH; [intros [=]|].
  destruct (Z.leb_spec v H) as [Hle|Hgt].
  { intros [= <-]. left. reflexivity. }
  simpl. destruct (Domain.seekFault n0); simpl; [intros [=]|].
  destruct (Domain.writeFault n0); simpl; [intros [=]|].
  intros [= <-]. right. exists H. simpl.
  rewrite string_of_list_byte_of_string. repeat split. exact Hgt.
Qed.

(** What any [Write] does to the node: nothing, or, in a write that
    succeeds, the replacement of an integer of the host by the greater
    integer of the payload. *)
Lemma Write_node_cases (pid : N) (buf : list byte) (r : Z * option error)
    (st st' : Domain.HState Domain.ioFileNode) :
  NfConntrackMaxHandler.Write pid buf st = (r, st') ->
  Domain.node st' = Domain.node st \/
  exists H v,
    GoLib.Atoi (Domain.hostLine (Domain.node st)) = (H, None) /\
    GoLib.Atoi (GoLib.TrimSpace (string_of_list_byte buf)) = (v, None) /\
    H < v /\ snd r = None /\
    Domain.node st' = Domain.ioSetLine (GoLib.Itoa v) (Domain.node st).
Proof.
  unfold NfConntrackMaxHandler.Write. go_unfold.
  destruct (GoLib.Atoi (GoLib.TrimSpace (string_of_list_byte buf)))
    as [v [e|]] eqn:Ev; [intros [= _ <-]; left; reflexivity|].
  destruct (Domain.ContainerLookupByPid (Domain.css st) pid) as [cntr|];
    [|intros [= _ <-]; left; reflexivity].
  assert (Hpush : forall err s1,
    NfConntrackMaxHandler.PushFile cntr v st = (err, s1) ->
    Domain.node s1 = Domain.node st \/
    exists H,
      GoLib.Atoi (Domain.hostLine (Domain.node st)) = (H, None) /\
      H < v /\ err = None /\
      Domain.node s1 = Domain.ioSetLine (GoLib.Itoa v) (Domain.node st)).
  { intros err s1 Hp. exact (proj2 (PushFile_cases _ _ _ _ _ Hp)). }
  assert (Hfinish : forall s1,
    NfConntrackMaxHandler.PushFile cntr v st = (None, s1) ->
    Domain.node s1 = Domain.node st \/
    exists H v0,
      GoLib.Atoi (Domain.hostLine (Domain.node st)) = (H, None) /\
      (v, None : option error) = (v0, None) /\ H < v0 /\
      (None : option error) = None /\
      Domain.node s1 = Domain.ioSetLine (GoLib.Itoa v0) (Domain.node st)).
  { intros s1 Hp. destruct (Hpush _ _ Hp) as [E|(H & HH & Hlt & _ & E)];
      [left; exact E | right; exists H, v; auto]. }
  assert (Hfail : forall e s1,
    NfConntrackMaxHandler.PushFile cntr v st = (Some e, s1) ->
    Domain.node s1 = Domain.node st).
  { intros e s1 Hp. destruct (Hpush _ _ Hp) as [E|(H & _ & _ & [=] & _)]; exact E. }
  destruct (Domain.Data (Domain.css st) cntr _ _) as [cur|].
  - destruct (GoLib.Atoi cur) as [c [e|]]; [intros [= _ <-]; left; reflexivity|].
    destruct (v <=? c); [intros [= _ <-]; left; reflexivity|].
    destruct (NfConntrackMaxHandler.PushFile cntr v st) as [[e|] s1] eqn:Ep;
      intros [= <- <-]; simpl.
    + left. eapply Hfail. reflexivity.
    + apply Hfinish. reflexivity.
  - destruct (NfConntrackMaxHandler.PushFile cntr v st) as [[e|] s1] eqn:Ep;
      intros [= <- <-]; simpl.
    + left. eapply Hfail. reflexivity.
    + apply Hfinish. reflexivity.
Qed.


(** X10.  The host value is never lowered: whatever the caller, the payload, the
    cached values and the outcome, a [Write] leaves the host pseudo-file as
    it is or replaces the integer it holds by the greater integer of the
    payload, which the host then holds. *)
Theorem Write_never_lowers_host (pid : N) (buf : list byte)
    (r : Z * option error) (st st' : Domain.HState Domain.ioFileNode) (H : Z) :
  NfConntrackMaxHandler.Write pid buf st = (r, st') ->
  GoLib.Atoi (Domain.hostLine (Domain.node st)) = (H, None) ->
  Domain.hostLine (Domain.node st') = Domain.hostLine (Domain.node st) \/
  exists v, GoLib.Atoi (GoLib.TrimSpace (string_of_list_byte buf)) = (v, None) /\
            H < v /\
            snd r = None /\
            GoLib.Atoi (Domain.hostLine (Domain.node st')) = (v, None).
Proof.
  intros Hw HH.
  destruct (Write_node_cases _ _ _ _ _ Hw)
    as [E|(H' & v & HH' & Hv & Hlt & Hok & E)].
  { left. rewrite E. reflexivity. }
  right. exists v. rewrite HH in HH'. injection HH' as <-.
  split; [exact Hv|]. split; [exact Hlt|]. split; [exact Hok|].
  rewrite E. simpl. apply Atoi_Itoa. eapply Atoi_range. exact Hv.
Qed.




(** X12.  A read that misses the resource map reads through to the host: when
    the host line is an integer, the read returns it with a newline and
    stores it in the resource map of the caller's container; when it is
    not, and in particular when the host file is empty, the read returns
    the error of [strconv.Atoi], not [io.EOF], and stores nothing.  The
    node is left as it is. *)
Theorem Read_miss_reads_host (pid : N) (buf : list byte) (off : Z)
    (st : Domain.HState Domain.ioFileNode) (cntr : string) :
  let path := Domain.ioPath (Domain.node st) in
  let name := Domain.ioName (Domain.node st) in
  let line := Domain.hostLine (Domain.node st) in
  off <= 0 ->
  Domain.ContainerLookupByPid (Domain.css st) pid = Some cntr ->
  Domain.Data (Domain.css st) cntr path name = None ->
  Domain.readFault (Domain.node st) = None ->
  NfConntrackMaxHandler.Read pid buf off st
  = match snd (GoLib.Atoi line) with
    | None =>
        (Domain.copyResultBuffer buf (list_byte_of_string (line +:+ GoLib.newline)),
         {| Domain.node := Domain.node st;
            Domain.css := Domain.SetData cntr path name line (Domain.css st) |})
    | Some e => ((buf, (0, Some e)), st)
    end.
Proof.
  intros path name line Hoff Hc Hd Hf. subst path name line.
  unfold NfConntrackMaxHandler.Read, NfConntrackMaxHandler.FetchFile. go_unfold.
  destruct (Z.ltb_spec 0 off) as [?|_]; [lia|].
  destruct st as [n0 c0].
  cbn [Domain.Name Domain.Path Domain.ReadLine Domain.ioFileNode_IOnode
       Domain.node Domain.css] in *.
  rewrite Hc. cbn [Domain.node Domain.css]. rewrite Hd.
  unfold Domain.ioReadLine. cbn [Domain.node Domain.css]. rewrite Hf.
  destruct (String.eqb_spec (Domain.hostLine n0) "") as [E|_]; simpl.
  - rewrite E. reflexivity.
  - destruct (GoLib.Atoi (Domain.hostLine n0)) as [v [e|]] eqn:Ea; simpl;
      [|reflexivity].
    apply Atoi_error in Ea as [k ->]. reflexivity.
Qed.

(* ===================================================================== *)
(** * The /proc/meminfo handler: opening and closing *)
(* ===================================================================== *)

Section MeminfoMore.
Context {Nd : Type} `{Domain.IOnode Nd}.

(** X13.  /proc/meminfo is read-only: [Open] refuses with EACCES every flag but
    [O_RDONLY], write-only flags included, before the host is asked
    anything, and the node keeps its flags.  With [O_RDONLY] the host open
    is made on the node as it is.  An error of the host, on open or on
    close, is always returned as EIO, whatever it was. *)
Theorem ProcMeminfo_Open_read_only (req : HandlerRequest) (st : Domain.HState Nd) :
  let surfaced (err : option error) :=
    match err with Some _ => Some (IOerror EIO) | None => None end in
  (Domain.OpenFlags (Domain.node st) <> Domain.O_RDONLY ->
   ProcMeminfoHandler.Open req st = (Some (IOerror EACCES), st)) /\
  (Domain.OpenFlags (Domain.node st) = Domain.O_RDONLY ->
   ProcMeminfoHandler.Open req st
   = (surfaced (snd (Domain.Open (Domain.node st))),
      {| Domain.node := fst (Domain.Open (Domain.node st));
         Domain.css := Domain.css st |})) /\
  ProcMeminfoHandler.Close st
  = (surfaced (snd (Domain.Close (Domain.node st))),
     {| Domain.node := fst (Domain.Close (Domain.node st));
        Domain.css := Domain.css st |}).
Proof.
  intros surfaced.
  unfold ProcMeminfoHandler.Open, ProcMeminfoHandler.Close. go_unfold.
  split; [|split].
  - intros Hne. destruct (Z.eqb_spec (Domain.OpenFlags (Domain.node st))
                            Domain.O_RDONLY); [contradiction | reflexivity].
  - intros ->. simpl. destruct (Domain.Open (Domain.node st)) as [n' [e|]];
      reflexivity.
  - destruct (Domain.Close (Domain.node st)) as [n' [e|]]; reflexivity.
Qed.

End MeminfoMore.

(* ===================================================================== *)
(** * The neigh handler: lookups, guards and directory listings *)
(* ===================================================================== *)

(** X14.  [Lookup] emulates the entries of the table and nothing else: for a
    relative path that is a key of [EmuNodesMap] it makes the file info of
    the entry, a directory or a file as the table says, without asking the
    ["/proc/sys/"] handler; for every other path it hands over to that
    handler, and fails when there is none.  An error of [filepath.Rel] is
    returned as it is. *)
Theorem Lookup_emulates_table (Now : string -> Z) (relPath : string)
    (procSys : option (option ProcSysNetIpv4Neigh.FileInfo * option error))
    (e : error) :
  ProcSysNetIpv4Neigh.Lookup Now (relPath, None) procSys
  = match ProcSysNetIpv4Neigh.EmuNodesMap !! relPath with
    | Some v => (Some (Spec.emulatedInfo Now relPath v), None)
    | None =>
        match procSys with
        | None => (None, Some (ErrorString "No /proc/sys/ handler found"))
        | Some r => r
        end
    end /\
  ProcSysNetIpv4Neigh.Lookup Now (relPath, Some e) procSys = (None, Some e).
Proof.
  split; [|reflexivity].
  unfold ProcSysNetIpv4Neigh.Lookup.
  destruct (String.eqb (GoLib.Dir relPath) "."
            || GoLib.HasPrefix relPath "default/gc_thresh") eqn:Eg.
  - destruct (ProcSysNetIpv4Neigh.EmuNodesMap !! relPath) as [v|]; [|reflexivity].
    unfold Spec.emulatedInfo. destruct (ProcSysNetIpv4Neigh.Kind v); reflexivity.
  - change (ProcSysNetIpv4Neigh.EmuNodesMap !! "")
      with (@None ProcSysNetIpv4Neigh.EmuNode).
    destruct (ProcSysNetIpv4Neigh.EmuNodesMap !! relPath) as [v|] eqn:Ek;
      [|reflexivity].
    (* a key of the table passes the test on the relative path *)
    exfalso. unfold ProcSysNetIpv4Neigh.EmuNodesMap in Ek.
    repeat (apply lookup_insert_Some in Ek as [[<- _]|[_ Ek]];
            [vm_compute in Eg; discriminate Eg|]).
    rewrite lookup_empty in Ek. discriminate Ek.
Qed.

(** X15.  A request that carries no container is refused by [Read] and [Write]
    with "Container not found", before the node is redirected and before
    [readFileInt] or [writeInt] is called; only a read at an offset above
    0, which returns [io.EOF], and a write of a payload that is not an
    integer, which returns the error of [strconv.Atoi], are answered
    before that test. *)
Theorem Neigh_request_without_container {Nd : Type} `{Domain.IOnode Nd}
    (IgnoreErrors : bool)
    (readFileInt : HandlerRequest -> Domain.M Nd (HandlerRequest * (Z * option error)))
    (writeInt : HandlerRequest -> Z -> Z -> bool ->
                Domain.M Nd (HandlerRequest * (Z * option error)))
    (req : HandlerRequest) (st : Domain.HState Nd) :
  Container req = None ->
  ProcSysNetIpv4Neigh.Read IgnoreErrors readFileInt req st
  = ((req, (0, Some (if 0 <? Offset req then EOF
                     else ErrorString "Container not found"))), st) /\
  ProcSysNetIpv4Neigh.Write IgnoreErrors writeInt req st
  = ((req, (0, Some match snd (GoLib.Atoi (GoLib.TrimSpace
                                    (string_of_list_byte (Data req)))) with
                    | Some e => e
                    | None => ErrorString "Container not found"
                    end)), st).
Proof.
  intros Hc. unfold ProcSysNetIpv4Neigh.Read, ProcSysNetIpv4Neigh.Write.
  rewrite Hc. split.
  - destruct (0 <? Offset req); reflexivity.
  - destruct (GoLib.Atoi _) as [v [e|]]; reflexivity.
Qed.

(** The loop of [ReadDirAll] appends to the entries, key after key, the
    directory entries of the keys whose parent is the relative path. *)
Lemma rangeBody_fold (Now : string -> Z) (relpath : string) (keys : list string)
    (entries : list ProcSysNetIpv4Neigh.FileInfo) :
  fold_left (ProcSysNetIpv4Neigh.rangeBody Now relpath) keys entries
  = entries ++
    flat_map (fun k => if String.eqb relpath (GoLib.Dir k)
                       then [Spec.listedInfo Now k] else []) keys.
Proof.
  revert entries. induction keys as [|k keys IH]; intros entries; simpl.
  - rewrite app_nil_r. reflexivity.
  - rewrite IH, rangeBody_eq, <- app_assoc. reflexivity.
Qed.

(** X16.  What [ReadDirAll] returns for a request that carries a container and a
    relative path: the emulated children come first, each listed as a
    directory of mode [os.ModeDir] whatever the table says of it; the
    entries of the ["/proc/sys/"] handler follow; when that handler fails
    the error is dropped and the emulated children are returned alone;
    when there is no such handler the call fails and returns no entry. *)
Theorem ReadDirAll_outcomes (Now : string -> Z) (req : HandlerRequest)
    (cntr relpath : string) (keys : list string)
    (common : list ProcSysNetIpv4Neigh.FileInfo) (e : error) :
  Container req = Some cntr ->
  let emulated :=
    List.map (Spec.listedInfo Now)
      (List.filter (fun k => String.eqb relpath (GoLib.Dir k)) keys) in
  let run := ProcSysNetIpv4Neigh.ReadDirAll Now req (relpath, None) keys in
  run (Some (common, None)) = (emulated ++ common, None) /\
  run (Some (common, Some e)) = (emulated, None) /\
  run None = ([], Some (ErrorString "No /proc/sys/ handler found")) /\
  Forall (fun i => ProcSysNetIpv4Neigh.FisDir i = true /\
                   ProcSysNetIpv4Neigh.Fmode i = ProcSysNetIpv4Neigh.ModeDir)
         emulated.
Proof.
  intros Hc emulated run.
  assert (Hfold : fold_left (ProcSysNetIpv4Neigh.rangeBody Now relpath) keys []
                  = emulated).
  { rewrite rangeBody_fold. simpl. unfold emulated. clear.
    induction keys as [|k keys IH]; simpl; [reflexivity|].
    destruct (String.eqb relpath (GoLib.Dir k)); simpl; rewrite IH; reflexivity. }
  unfold run, ProcSysNetIpv4Neigh.ReadDirAll. rewrite Hc, Hfold.
  split; [reflexivity|]. split; [reflexivity|]. split; [reflexivity|].
  unfold emulated. apply Forall_forall. intros i Hi.
  apply list_elem_of_In, in_map_iff in Hi as (k & <- & _). split; reflexivity.
Qed.

(** X17.  The order in which Go visits the table does not matter to
    [ReadDirAll]: two orders of the same keys give the same error and the
    same entries up to their order. *)
Theorem ReadDirAll_order_independent (Now : string -> Z) (req : HandlerRequest)
    (rel : string * option error) (keys keys' : list string)
    (procSys : option (list ProcSysNetIpv4Neigh.FileInfo * option error)) :
  keys ≡ₚ keys' ->
  snd (ProcSysNetIpv4Neigh.ReadDirAll Now req rel keys procSys)
  = snd (ProcSysNetIpv4Neigh.ReadDirAll Now req rel keys' procSys) /\
  fst (ProcSysNetIpv4Neigh.ReadDirAll Now req rel keys procSys)
  ≡ₚ fst (ProcSysNetIpv4Neigh.ReadDirAll Now req rel keys' procSys).
Proof.
  intros Hperm. unfold ProcSysNetIpv4Neigh.ReadDirAll.
  destruct (Container req); [|split; reflexivity].
  destruct rel as [relpath [e|]]; [split; reflexivity|].
  rewrite !rangeBody_fold. simpl.
  assert (Hemu : flat_map (fun k => if String.eqb relpath (GoLib.Dir k)
                                    then [Spec.listedInfo Now k] else []) keys
                 ≡ₚ flat_map (fun k => if String.eqb relpath (GoLib.Dir k)
                                       then [Spec.listedInfo Now k] else []) keys').
  { apply Permutation_flat_map. exact Hperm. }
  destruct procSys as [[common [e|]]|]; simpl; split; try reflexivity.
  - exact Hemu.
  - rewrite Hemu. reflexivity.
Qed.

(* ===================================================================== *)
(** * The further properties on concrete inputs *)
(* ===================================================================== *)

(** X1, witness.  The service just made by [NewFuseServerService] registers [c1]. *)
Lemma CreateFuseServer_success_witness :
  let w := {| Fuse.fss := Fuse.NewFuseServerService "/var/lib/sysboxfs";
              Fuse.dirs := ∅; Fuse.launched := []; Fuse.logs := [] |} in
  let w1 := fst (Fuse.CreateFuseServer Samples.srvOk Samples.noFault "c1" w) in
  Fuse.servers (Fuse.fss w) !! "c1" = None /\
  Fuse.servers (Fuse.fss w1) !! "c1" = Some Samples.srv1 /\
  Fuse.launched w1 = [Samples.srv1].
Proof.
  intros w w1.
  destruct (proj1 (CreateFuseServer_success Samples.srvOk Samples.noFault "c1" w w1)
              eq_refl) as (Hnone & _ & d2 & _ & Hw1).
  split; [exact Hnone|]. rewrite Hw1. split; reflexivity.
Defined.

(** X2, witness.  A second [CreateFuseServer] for [c1]. *)
Lemma CreateFuseServer_twice_witness :
  let w := Samples.world ∅ ∅ in
  let w1 := fst (Fuse.CreateFuseServer Samples.srvOk Samples.noFault "c1" w) in
  snd (Fuse.CreateFuseServer Samples.srvOk Samples.noFault "c1" w1)
  = Some (ErrorString "FuseServer already present").
Proof.
  intros w w1.
  rewrite (CreateFuseServer_twice Samples.srvOk Samples.noFault "c1" w w1 eq_refl).
  reflexivity.
Defined.

(** X4, witness.  [c1] is created, then destroyed. *)
Lemma Create_then_Destroy_witness :
  let w := Samples.world ∅ ∅ in
  let w1 := fst (Fuse.CreateFuseServer Samples.srvOk Samples.noFault "c1" w) in
  let w2 := fst (Fuse.DestroyFuseServer Samples.srvOk Samples.noFault "c1" w1) in
  Fuse.servers (Fuse.fss w2) = Fuse.servers (Fuse.fss w) /\
  ("/var/lib/sysboxfs/c1" ∉ Fuse.dirs w2).
Proof.
  intros w w1 w2.
  destruct (Create_then_Destroy Samples.srvOk Samples.srvOk Samples.noFault
              Samples.noFault "c1" w w1 (Fuse.dirs w1)
              (Fuse.dirs w1 ∖ {[ "/var/lib/sysboxfs/c1" ]}))
    as (Hservers & _ & Hgone & _); [reflexivity | reflexivity | reflexivity |].
  split; [exact Hservers | exact Hgone].
Defined.

(** X5, witness.  Two servers, visited in the order [c2], [c1]. *)
Lemma DestroyFuseService_empties_witness :
  let w := Samples.world (<["c1" := Samples.srv1]> {[ "c2" := Samples.srv2 ]})
             ({[ "/var/lib/sysboxfs/c1" ]} ∪ {[ "/var/lib/sysboxfs/c2" ]}) in
  Fuse.servers (Fuse.fss
    (Fuse.DestroyFuseService Samples.srvOk Samples.noFault ["c2"; "c1"] w)) = ∅.
Proof.
  intros w.
  assert (Hkeys : forall k, is_Some (Fuse.servers (Fuse.fss w) !! k) ->
                            k = "c1" \/ k = "c2").
  { intros k [s Hs]. simpl in Hs.
    apply lookup_insert_Some in Hs as [[<- _]|[_ Hs]]; [left; reflexivity|].
    apply lookup_singleton_Some in Hs as [<- _]. right; reflexivity. }
  apply (DestroyFuseService_empties Samples.srvOk Samples.noFault ["c2"; "c1"] w).
  - reflexivity.
  - reflexivity.
  - intros k Hk. destruct (Hkeys k Hk) as [-> | ->]; apply elem_of_union;
      [left | right]; apply elem_of_singleton; reflexivity.
  - intros k k' Hk Hk' Heq.
    destruct (Hkeys k Hk) as [-> | ->], (Hkeys k' Hk') as [-> | ->];
      try reflexivity; vm_compute in Heq; discriminate Heq.
  - intros k Hk. apply elem_of_cons. rewrite elem_of_cons.
    destruct (Hkeys k Hk) as [-> | ->];
      [right; left | left]; reflexivity.
Defined.

(** X6, witness.  A fetch from a host that holds 100. *)
Lemma FetchFile_validates_witness :
  let st := Samples.state (Samples.nfNode Domain.O_RDONLY "100") Samples.cssTwo in
  (exists v, GoLib.Atoi "100" = (v, None)) /\
  fst (snd (Domain.ReadLine (Domain.node st))) = "100".
Proof.
  intros st.
  assert (Hf : NfConntrackMaxHandler.FetchFile "c1" st = (("100", None), st))
    by (vm_compute; reflexivity).
  destruct (FetchFile_validates "c1" st st "100" None Hf) as [_ Hdata].
  exact Hdata.
Defined.

(** X7, witness.  The process 10 of [c1] reads while the host holds 100; the host then
    holds 700, and the process 11 of [c1] reads. *)
Lemma Read_then_Read_witness :
  let buf := Samples.b "--------" in
  let st := Samples.state (Samples.nfNode Domain.O_RDONLY "100") Samples.cssTwo in
  let st' := snd (NfConntrackMaxHandler.Read 10 buf 0 st) in
  let st2 := Samples.state (Samples.nfNode Domain.O_RDONLY "700") (Domain.css st') in
  NfConntrackMaxHandler.Read 11 buf 0 st2
  = ((Samples.b ("100" +:+ GoLib.newline +:+ "----"), (4, None)), st2).
Proof.
  intros buf st st' st2.
  destruct (Read_then_Read 10 11 buf buf 0 st st' st2
              (Samples.b ("100" +:+ GoLib.newline +:+ "----")) 4)
    as (cntr & data & Hc & Hdata & _ & Hread).
  - lia.
  - vm_compute. reflexivity.
  - repeat split; reflexivity.
  - vm_compute in Hc. injection Hc as <-.
    vm_compute in Hdata. injection Hdata as <-. exact Hread.
Defined.

(** X8, witness.  The process 99 belongs to no registered container. *)
Lemma unregistered_caller_refused_witness :
  let st := Samples.state (Samples.nfNode Domain.O_RDWR "100") Samples.cssTwo in
  NfConntrackMaxHandler.Write 99 (Samples.b "200") st
  = ((0, Some (ErrorString "Container not found")), st) /\
  NfConntrackMaxHandler.Write 99 (Samples.b "2x") st
  = ((0, Some (NumError "Atoi" "2x" ErrSyntax)), st) /\
  NfConntrackMaxHandler.Read 99 (Samples.b "----") 0 st
  = ((Samples.b "----", (0, Some (ErrorString "Container not found"))), st).
Proof.
  intros st.
  destruct (unregistered_caller_refused 99 (Samples.b "200") 0 st eq_refl) as [Hw _].
  destruct (unregistered_caller_refused 99 (Samples.b "2x") 0 st eq_refl) as [Hx _].
  destruct (unregistered_caller_refused 99 (Samples.b "----") 0 st eq_refl) as [_ Hr].
  split; [exact Hw|]. split; [exact Hx|]. apply Hr. lia.
Defined.

(** X10, witness.  [c1], whose cached value is 500, writes 300 to a host that holds 100:
    the host is left at 100; it then writes 600: the host holds 600. *)
Lemma Write_never_lowers_host_witness :
  let st := Samples.state (Samples.nfNode Domain.O_RDWR "100")
              (Samples.cssOne {[ (Samples.nfPath, Samples.nfName) := "500" ]}) in
  let st1 := snd (NfConntrackMaxHandler.Write 10 (Samples.b "300") st) in
  let st2 := snd (NfConntrackMaxHandler.Write 10 (Samples.b "600") st1) in
  Domain.hostLine (Domain.node st1) = "100" /\
  GoLib.Atoi (Domain.hostLine (Domain.node st2)) = (600, None).
Proof.
  intros st st1 st2. split; [reflexivity|].
  destruct (Write_never_lowers_host 10 (Samples.b "600") (3, None) st1 st2 100)
    as [Hsame|(v & Hv & _ & _ & Hhost)].
  - vm_compute. reflexivity.
  - reflexivity.
  - vm_compute in Hsame. discriminate Hsame.
  - vm_compute in Hv. injection Hv as <-. exact Hhost.
Defined.



(** X12, witness.  A first read by [c1], of a host that holds 100, and of an empty one. *)
Lemma Read_miss_reads_host_witness :
  let st := Samples.state (Samples.nfNode Domain.O_RDONLY "100") Samples.cssTwo in
  let empty := Samples.state (Samples.nfNode Domain.O_RDONLY "") Samples.cssTwo in
  fst (NfConntrackMaxHandler.Read 10 (Samples.b "--------") 0 st)
  = (Samples.b ("100" +:+ GoLib.newline +:+ "----"), (4, None)) /\
  NfConntrackMaxHandler.Read 10 (Samples.b "--------") 0 empty
  = ((Samples.b "--------", (0, Some (NumError "Atoi" "" ErrSyntax))), empty).
Proof.
  intros st empty.
  rewrite (Read_miss_reads_host 10 (Samples.b "--------") 0 st "c1");
    [|lia|reflexivity..].
  rewrite (Read_miss_reads_host 10 (Samples.b "--------") 0 empty "c1");
    [|lia|reflexivity..].
  split; reflexivity.
Defined.

(** X9, witness.  The process 10 of [c1] writes: the entry of [c2] and the other entries
    of [c1] are as before. *)
Lemma handler_touches_only_own_entry_witness :
  let st := Samples.state (Samples.nfNode Domain.O_RDWR "100") Samples.cssTwo in
  let st' := snd (NfConntrackMaxHandler.Write 10 (Samples.b "200") st) in
  Domain.Data (Domain.css st') "c2" Samples.nfPath Samples.nfName
  = Domain.Data (Domain.css st) "c2" Samples.nfPath Samples.nfName /\
  Domain.Data (Domain.css st') "c1" Samples.nfPath "other"
  = Domain.Data (Domain.css st) "c1" Samples.nfPath "other".
Proof.
  intros st st'.
  destruct (handler_touches_only_own_entry 10 st st') as [_ Hdata].
  - left. exists (Samples.b "200"), (3, None). vm_compute. reflexivity.
  - split; apply Hdata; [left | right]; vm_compute; intros [=].
Defined.

(** X15, witness.  A request without container, on the neigh handler. *)
Lemma Neigh_request_without_container_witness :
  let st := Samples.state (Samples.nfNode Domain.O_RDONLY "100") Samples.cssTwo in
  let req := {| ID := 1%N; Pid := 99%N; Container := None; Offset := 0;
                Data := Samples.b "128" |} in
  ProcSysNetIpv4Neigh.Read true (fun r => Domain.ret (r, (3, None))) req st
  = ((req, (0, Some (ErrorString "Container not found"))), st) /\
  ProcSysNetIpv4Neigh.Write true (fun r _ _ _ => Domain.ret (r, (3, None))) req st
  = ((req, (0, Some (ErrorString "Container not found"))), st).
Proof.
  intros st req.
  exact (Neigh_request_without_container true
           (fun r => Domain.ret (r, (3, None)))
           (fun r _ _ _ => Domain.ret (r, (3, None))) req st eq_refl).
Defined.

(** X16, witness.  The listing of [default] when the ["/proc/sys/"] handler fails. *)
Lemma ReadDirAll_outcomes_witness :
  let keys := ["default/gc_thresh2"; "default"; "default/gc_thresh1"] in
  let req := Samples.request 0 [] in
  List.map ProcSysNetIpv4Neigh.Fname
    (fst (ProcSysNetIpv4Neigh.ReadDirAll (fun _ => 0) req ("default", None) keys
            (Some ([], Some (ErrorString "no such directory")))))
  = ["gc_thresh2"; "gc_thresh1"].
Proof.
  intros keys req.
  destruct (ReadDirAll_outcomes (fun _ => 0) req "c1" "default" keys []
              (ErrorString "no such directory") eq_refl) as (_ & Hfail & _).
  rewrite Hfail. reflexivity.
Defined.

(** X17, witness.  Two orders of visit of two keys. *)
Lemma ReadDirAll_order_independent_witness :
  let req := Samples.request 0 [] in
  let run keys :=
    ProcSysNetIpv4Neigh.ReadDirAll (fun _ => 0) req ("default", None) keys
      (Some ([], None)) in
  fst (run ["default/gc_thresh1"; "default/gc_thresh2"])
  ≡ₚ fst (run ["default/gc_thresh2"; "default/gc_thresh1"]).
Proof.
  intros req run.
  apply (ReadDirAll_order_independent (fun _ => 0) req ("default", None)
           ["default/gc_thresh1"; "default/gc_thresh2"]
           ["default/gc_thresh2"; "default/gc_thresh1"] (Some ([], None))).
  apply perm_swap.
Defined.
